(** * Subscription lifecycle: a shallow embedding of the subscription routes
      and of the expiry sweep, with the properties of the lifecycle
      specification stated and proved over it.

    Source files embedded here:
      - app/models/models.py                 (Module Models)
      - app/schemas/subscription.py          (Module Schemas)
      - app/auth/jwt.py                      (Module Jwt, the two guards)
      - app/routes/subscriptions.py          (Module Routes)
      - app/services/subscription_service.py (Module SubscriptionService)

    Conventions.
      - A [datetime] is the integer number of microseconds since
        0001-01-01T00:00:00, a [timedelta] an integer number of
        microseconds.  The constructor [timedelta(days=n)] and the sum of a
        datetime and a timedelta raise [OverflowError] outside the range of
        the two types, as Python's do.
      - Every call of [datetime.utcnow()] is an explicit argument of the
        function that makes it, one argument per call site.
      - A table is the list of its rows in the order the database returns
        them; [query(..).filter(p).first()] is the first row satisfying [p]
        and the object it returns is that very row: assigning to one of its
        attributes and committing rewrites the row in place.  The place of
        a row in the list is a convention: no query of the embedded code
        asks for an order, and a database may return a rewritten row after
        the others.
      - A string is the sequence of its UTF-8 bytes.
      - The ORM-maintained audit columns [created_at]/[updated_at] are never
        read or written by the embedded functions and are not carried. *)

From Stdlib Require Import ZArith QArith List String Bool Lia.
From Stdlib Require Import DecimalString.
Import ListNotations.
Local Open Scope string_scope.
Local Open Scope Z_scope.

(** ** Python helpers *)

(** [str(n)] for an integer, as used by the f-strings of the routes. *)
Definition str (n : Z) : string := NilZero.string_of_int (Z.to_int n).

(** [len(s)] of a Python string, held here as its UTF-8 bytes: the number
    of characters, that is, of bytes that do not continue a character. *)
Definition continues_character (c : Ascii.ascii) : bool :=
  (128 <=? Z.of_N (Ascii.N_of_ascii c)) && (Z.of_N (Ascii.N_of_ascii c) <? 192).

Fixpoint len (s : string) : Z :=
  match s with
  | EmptyString => 0
  | String c rest => (if continues_character c then 0 else 1) + len rest
  end.

(** One day in microseconds: [timedelta(days=1)]. *)
Definition DAY : Z := 86400000000.

(** The length of [n] days, in microseconds. *)
Definition timedelta_days (n : Z) : Z := n * DAY.

(** [td.days] of a normalised timedelta: the floor of the quotient by one
    day (seconds and microseconds are kept non-negative by Python). *)
Definition days (td : Z) : Z := td / DAY.

(** ** app/models/models.py *)
Module Models.

Inductive SubscriptionStatus : Type := ACTIVE | CANCELLED | EXPIRED.

(** [SubscriptionStatus.value]. *)
Definition value (s : SubscriptionStatus) : string :=
  match s with
  | ACTIVE => "ACTIVE"
  | CANCELLED => "CANCELLED"
  | EXPIRED => "EXPIRED"
  end.

Definition status_eqb (a b : SubscriptionStatus) : bool :=
  match a, b with
  | ACTIVE, ACTIVE | CANCELLED, CANCELLED | EXPIRED, EXPIRED => true
  | _, _ => false
  end.

(** The [price] column is a float in the source; no embedded function
    computes with it, and it is carried as a rational number. *)
Module Plan.
Record t : Type := mk
  { id : Z;
    name : string;
    price : Q;
    duration_days : Z;
    is_active : bool }.

Definition set_price (v : Q) (p : t) : t :=
  mk (id p) (name p) v (duration_days p) (is_active p).
End Plan.

Module User.
Record t : Type := mk
  { id : Z;
    username : string;
    is_active : bool;
    is_admin : bool }.
End User.

(** The [status] and [cancelled_at] columns are nullable; [None] is SQL
    NULL. *)
Module Subscription.
Record t : Type := mk
  { id : Z;
    user_id : Z;
    plan_id : Z;
    start_date : Z;
    end_date : Z;
    status : option SubscriptionStatus;
    cancelled_at : option Z }.

(** [setattr(subscription, "<column>", v)], one function per column the
    routes assign. *)
Definition set_plan_id (v : Z) (s : t) : t :=
  mk (id s) (user_id s) v (start_date s) (end_date s) (status s)
     (cancelled_at s).
Definition set_end_date (v : Z) (s : t) : t :=
  mk (id s) (user_id s) (plan_id s) (start_date s) v (status s)
     (cancelled_at s).
Definition set_status (v : option SubscriptionStatus) (s : t) : t :=
  mk (id s) (user_id s) (plan_id s) (start_date s) (end_date s) v
     (cancelled_at s).
Definition set_cancelled_at (v : option Z) (s : t) : t :=
  mk (id s) (user_id s) (plan_id s) (start_date s) (end_date s)
     (status s) v.
End Subscription.

(** [Subscription.status == st] as a filter criterion (false on NULL). *)
Definition has_status (st : SubscriptionStatus) (s : Subscription.t) : bool :=
  match Subscription.status s with
  | Some st' => status_eqb st' st
  | None => false
  end.

End Models.
Import Models.

(** ** The persistence collaborator *)

(** Modelled from the spec: the storage collaborator, module [app.database]
    ([SessionLocal], [get_db]), which is not among the sources.  The spec
    describes it as three relations with lookup by predicate, insert, update
    and transactional commit/rollback.  The state of the database is the
    three tables and the sequence from which a new subscription row draws
    its primary key. *)
Record Database : Type := mkDatabase
  { users : list User.t;
    plans : list Plan.t;
    subscriptions : list Subscription.t;
    subscriptions_id_seq : Z }.

Definition with_subscriptions (subs : list Subscription.t) (db : Database)
  : Database :=
  mkDatabase (users db) (plans db) subs (subscriptions_id_seq db).

Definition with_plans (ps : list Plan.t) (db : Database) : Database :=
  mkDatabase (users db) ps (subscriptions db) (subscriptions_id_seq db).

(** [query.filter(p).first()]. *)
Definition first {A : Type} (p : A -> bool) (table : list A) : option A :=
  find p table.

(** [query.filter(p).all()]. *)
Definition all {A : Type} (p : A -> bool) (table : list A) : list A :=
  filter p table.

(** Writing back the object obtained by [first p]: the first row satisfying
    [p] is replaced by [f] of itself, every other row is left alone. *)
Fixpoint assign_first {A : Type} (p : A -> bool) (f : A -> A) (table : list A)
  : list A :=
  match table with
  | [] => []
  | row :: rest =>
      if p row then f row :: rest else row :: assign_first p f rest
  end.

(** [db.add(row); db.commit(); db.refresh(row)] for a subscription: the row
    receives the next value of the sequence as its [id] and is appended. *)
Definition add_subscription (row : Subscription.t) (db : Database)
  : Subscription.t * Database :=
  let stored :=
    Subscription.mk (subscriptions_id_seq db) (Subscription.user_id row)
      (Subscription.plan_id row) (Subscription.start_date row)
      (Subscription.end_date row) (Subscription.status row)
      (Subscription.cancelled_at row) in
  (stored,
   mkDatabase (users db) (plans db) (subscriptions db ++ [stored])%list
     (subscriptions_id_seq db + 1)).

(** ** Exceptions and request handlers *)

Inductive Error : Type :=
| HTTPException (status_code : Z) (detail : string)
| Unhandled (exception : string).

Inductive Result (A : Type) : Type :=
| Ok (a : A)
| Raise (e : Error).
Arguments Ok {A} a.
Arguments Raise {A} e.

(** [query.offset(skip).limit(limit).all()] on the rows a query selects.
    The two bounds are integers the routes pass on as they receive them; the
    configured database (PostgreSQL, [config.DATABASE_URL]) refuses a
    negative [OFFSET] or [LIMIT] and one that is not a 64-bit integer, and
    the request ends in the driver's error. *)
Definition offset_limit_all {A : Type} (skip limit : Z) (rows : list A)
  : Result (list A) :=
  if (skip <? 0) || (limit <? 0)
  then Raise (Unhandled "DataError: OFFSET/LIMIT must not be negative")
  else if (2 ^ 63 <=? skip) || (2 ^ 63 <=? limit)
  then Raise (Unhandled "DataError: bigint out of range")
  else Ok (firstn (Z.to_nat limit) (skipn (Z.to_nat skip) rows)).

(** A request handler runs against the database of its session.  It either
    returns a value together with the committed database, or raises; a raise
    happens before any commit, so the database is then the one the handler
    started with (see [run]). *)
Definition Handler (A : Type) : Type := Database -> Result (A * Database).

Definition ret {A : Type} (a : A) : Handler A := fun db => Ok (a, db).

Definition raise {A : Type} (e : Error) : Handler A := fun _ => Raise e.

Definition bind {A B : Type} (m : Handler A) (k : A -> Handler B) : Handler B :=
  fun db =>
    match m db with
    | Ok (a, db') => k a db'
    | Raise e => Raise e
    end.

Notation "x <- m ;; k" := (bind m (fun x => k))
  (at level 61, m at next level, right associativity).
Notation "m ;;; k" := (bind m (fun _ => k))
  (at level 61, right associativity).

(** A computation that may raise, run inside a handler. *)
Definition try_ {A : Type} (r : Result A) : Handler A :=
  fun db =>
    match r with
    | Ok a => Ok (a, db)
    | Raise e => Raise e
    end.

(** ** Dates Python can represent *)

(** [date.max.toordinal()]: the number of days from 0001-01-01 to
    9999-12-31.  The values of [datetime] are the microseconds
    [0 .. MAXORDINAL * DAY - 1]. *)
Definition MAXORDINAL : Z := 3652059.

Definition is_datetime (t : Z) : bool :=
  (0 <=? t) && (t <? MAXORDINAL * DAY).

(** [timedelta(days=n)]: refused beyond 999999999 days. *)
Definition timedelta (n : Z) : Result Z :=
  if Z.abs n <=? 999999999 then Ok (timedelta_days n)
  else Raise (Unhandled
                ("OverflowError: days=" ++ str n
                 ++ "; must have magnitude <= 999999999")).

(** [t + td] for a datetime [t] and a timedelta [td]: refused when the sum
    is not a datetime. *)
Definition datetime_add (t td : Z) : Result Z :=
  if is_datetime (t + td) then Ok (t + td)
  else Raise (Unhandled "OverflowError: date value out of range").

(** [t + timedelta(days=n)]. *)
Definition plus_days (t n : Z) : Result Z :=
  match timedelta n with
  | Ok td => datetime_add t td
  | Raise e => Raise e
  end.

(** [row = db.query(T).filter(p).first()] followed by
    [if not row: raise e]. *)
Definition first_or_raise {A : Type} (table : Database -> list A)
  (p : A -> bool) (e : Error) : Handler A :=
  fun db =>
    match first p (table db) with
    | Some row => Ok (row, db)
    | None => Raise e
    end.

(** [if c: raise e]. *)
Definition raise_if (c : bool) (e : Error) : Handler unit :=
  if c then raise e else ret tt.

(** The database and the response of a request. *)
Definition run {A : Type} (h : Handler A) (db : Database)
  : Database * Result A :=
  match h db with
  | Ok (a, db') => (db', Ok a)
  | Raise e => (db, Raise e)
  end.

(** The status codes the routes use. *)
Definition HTTP_400_BAD_REQUEST : Z := 400.
Definition HTTP_403_FORBIDDEN : Z := 403.
Definition HTTP_404_NOT_FOUND : Z := 404.

(** ** app/schemas/subscription.py *)
Module Schemas.

Module SubscriptionCreate.
Record t : Type := mk { user_id : Z; plan_id : Z }.
End SubscriptionCreate.

(** Both fields are optional.  The outer [option] records whether the
    request set the field ([exclude_unset]); the inner one is the value,
    [None] being an explicit null. *)
Module SubscriptionUpdate.
Record t : Type := mk
  { plan_id : option (option Z);
    status : option (option SubscriptionStatus) }.
End SubscriptionUpdate.

(** [PlanCreate] of app/schemas/plan.py, on the columns the plan rows
    carry ([description] and [features] are free text that no function
    reads), with the constraints its fields declare. *)
Module PlanCreate.
Record t : Type := mk
  { name : string;
    price : Q;
    duration_days : Z;
    is_active : bool }.

End PlanCreate.

End Schemas.
Import Schemas.

(** ** app/auth/jwt.py *)
Module Jwt.

(** [get_current_active_user], applied to the user the token resolved
    to. *)
Definition get_current_active_user (current_user : User.t) : Result User.t :=
  if negb (User.is_active current_user)
  then Raise (HTTPException 400 "Inactive user")
  else Ok current_user.

(** [get_current_admin_user]. *)
Definition get_current_admin_user (current_user : User.t) : Result User.t :=
  if negb (User.is_admin current_user)
  then Raise (HTTPException HTTP_403_FORBIDDEN "Not enough permissions")
  else Ok current_user.

(** What the two library calls of [get_current_user] give for the bearer
    token.  [jwt.decode] raises a [JWTError] or returns a payload; of the
    payload the function tests whether [sub] is there ([has_sub]: the claim
    is present and not null) and hands [sub], [username] and [is_admin] to
    [TokenData], whose validation raises a [ValidationError] or gives the
    integer [user_id] ([token_data]). *)
Inductive Decoded : Type :=
| JWTError
| Payload (has_sub : bool) (token_data : option Z).

Definition credentials_exception : Error :=
  HTTPException 401 "Could not validate credentials".

(** [get_current_user]: the user row the token resolves to.  The
    [ValidationError] is raised inside the [try] and is not a [JWTError]:
    it is not caught. *)
Definition get_current_user (token : Decoded) (db : Database)
  : Result User.t :=
  match token with
  | JWTError => Raise credentials_exception
  | Payload false _ => Raise credentials_exception
  | Payload true None => Raise (Unhandled "ValidationError")
  | Payload true (Some user_id) =>
      match first (fun u => User.id u =? user_id) (users db) with
      | None => Raise credentials_exception
      | Some user =>
          if negb (User.is_active user)
          then Raise (HTTPException 400 "Inactive user")
          else Ok user
      end
  end.

(** The dependency chains of the routes:
    [Depends(get_current_active_user)] and
    [Depends(get_current_admin_user)], each on top of
    [Depends(get_current_user)]. *)
Definition active_user_of (token : Decoded) (db : Database) : Result User.t :=
  match get_current_user token db with
  | Ok user => get_current_active_user user
  | Raise e => Raise e
  end.

Definition admin_user_of (token : Decoded) (db : Database) : Result User.t :=
  match get_current_user token db with
  | Ok user => get_current_admin_user user
  | Raise e => Raise e
  end.

End Jwt.

(** ** app/services/subscription_service.py *)
Module SubscriptionService.

Inductive Level : Type := INFO | ERROR.

(** A record written through [logger]: its level and its message. *)
Definition LogRecord : Type := (Level * string)%type.

(** What a Python call evaluates to, as far as the sweep and its callers
    are concerned: a function that ends without [return] gives [None]. *)
Inductive PyObject : Type :=
| PyNone
| PyInt (n : Z).

(** Where the persistence layer raises during one run of the sweep, if it
    does; the string is [str(e)] of the exception. *)
Inductive Fault : Type :=
| NoFault
| QueryRaises (e : string)
| CommitRaises (e : string).

(** The filter of the sweep:
    [status == ACTIVE] and [end_date < datetime.utcnow()]. *)
Definition overdue (utcnow : Z) (s : Subscription.t) : bool :=
  has_status ACTIVE s && (Subscription.end_date s <? utcnow).

(** The body of the [for] loop on one selected row. *)
Definition mark_expired (s : Subscription.t) : Subscription.t :=
  Subscription.set_status (Some EXPIRED) s.

(** The table once the loop has run: the selected objects are the rows
    themselves, so each row the filter selects has been assigned
    [EXPIRED] and no other row has been touched. *)
Definition expire_overdue (utcnow : Z) (table : list Subscription.t)
  : list Subscription.t :=
  map (fun s => if overdue utcnow s then mark_expired s else s) table.

(** The records the loop logs, one per selected row. *)
Definition marking_records (expired_subscriptions : list Subscription.t)
  : list LogRecord :=
  map (fun s =>
         (INFO,
          "Marking subscription " ++ str (Subscription.id s)
          ++ " as EXPIRED"))
    expired_subscriptions.

(** [logger.info(msg)] / [logger.error(msg)]: the record is appended. *)
Definition emit (log : list LogRecord) (level : Level) (msg : string)
  : list LogRecord :=
  app log [(level, msg)].

(** [check_expired_subscriptions]: the committed database, the log and the
    value of the call.  The function has no [return] statement. *)
Definition check_expired_subscriptions (fault : Fault) (utcnow : Z)
  (db : Database) (log : list LogRecord)
  : Database * list LogRecord * PyObject :=
  let log := emit log INFO "Checking for expired subscriptions..." in
  match fault with
  | QueryRaises e =>
      (db, emit log ERROR ("Error checking expired subscriptions: " ++ e),
       PyNone)
  | CommitRaises e =>
      let expired_subscriptions := all (overdue utcnow) (subscriptions db) in
      let log := app log (marking_records expired_subscriptions) in
      (* db.commit() raises; db.rollback() discards the assignments *)
      (db, emit log ERROR ("Error checking expired subscriptions: " ++ e),
       PyNone)
  | NoFault =>
      let expired_subscriptions := all (overdue utcnow) (subscriptions db) in
      let log := app log (marking_records expired_subscriptions) in
      let db := with_subscriptions
                  (expire_overdue utcnow (subscriptions db)) db in
      (db,
       emit log INFO
         ("Updated " ++ str (Z.of_nat (List.length expired_subscriptions))
          ++ " expired subscriptions"),
       PyNone)
  end.

(** [get_subscription_details]. *)
Definition get_subscription_details (subscription_id : Z) (db : Database)
  : option Subscription.t :=
  first (fun s => Subscription.id s =? subscription_id) (subscriptions db).

End SubscriptionService.

(** ** app/routes/subscriptions.py *)
Module Routes.

(** [current_user.id != subscription.user_id and not current_user.is_admin] *)
Definition not_authorized (current_user : User.t) (s : Subscription.t)
  : bool :=
  negb (User.id current_user =? Subscription.user_id s)
  && negb (User.is_admin current_user).

(** [create_subscription]; [utcnow] is the reading of the clock taken for
    [start_date].  The sum for [end_date] raises [OverflowError] when the
    date is beyond the calendar; nothing has been added by then. *)
Definition create_subscription (subscription : SubscriptionCreate.t)
  (current_user : User.t) (utcnow : Z) : Handler Subscription.t :=
  user <- first_or_raise users
    (fun u => User.id u =? SubscriptionCreate.user_id subscription)
    (HTTPException HTTP_404_NOT_FOUND
       ("User with ID " ++ str (SubscriptionCreate.user_id subscription)
        ++ " not found")) ;;
  plan <- first_or_raise plans
    (fun p => Plan.id p =? SubscriptionCreate.plan_id subscription)
    (HTTPException HTTP_404_NOT_FOUND
       ("Plan with ID " ++ str (SubscriptionCreate.plan_id subscription)
        ++ " not found")) ;;
  raise_if (negb (Plan.is_active plan))
    (HTTPException HTTP_400_BAD_REQUEST
       ("Plan with ID " ++ str (SubscriptionCreate.plan_id subscription)
        ++ " is not active")) ;;;
  fun db =>
    let active_subscription :=
      first (fun s =>
               (Subscription.user_id s
                =? SubscriptionCreate.user_id subscription)
               && has_status ACTIVE s)
        (subscriptions db) in
    match active_subscription with
    | Some _ =>
        Raise (HTTPException HTTP_400_BAD_REQUEST
                 "User already has an active subscription")
    | None =>
        let start_date := utcnow in
        match plus_days start_date (Plan.duration_days plan) with
        | Raise e => Raise e
        | Ok end_date =>
            let new_subscription :=
              Subscription.mk 0 (SubscriptionCreate.user_id subscription)
                (SubscriptionCreate.plan_id subscription) start_date
                end_date (Some ACTIVE) None in
            Ok (add_subscription new_subscription db)
        end
    end.

(** The dictionary [update_data] of [update_subscription]: the keys it can
    hold and, for each key present, its value. *)
Module UpdateData.
Record t : Type := mk
  { plan_id : option (option Z);
    status : option (option SubscriptionStatus);
    end_date : option Z;
    cancelled_at : option Z }.
End UpdateData.

(** [subscription_update.dict(exclude_unset=True)]. *)
Definition dict_exclude_unset (u : SubscriptionUpdate.t) : UpdateData.t :=
  UpdateData.mk (SubscriptionUpdate.plan_id u) (SubscriptionUpdate.status u)
    None None.

(** [for key, value in update_data.items(): setattr(subscription, key, value)].
    A null [plan_id] never reaches the loop (the plan lookup has raised
    404 for it), so that entry is left as it is. *)
Definition setattrs (update_data : UpdateData.t) (s : Subscription.t)
  : Subscription.t :=
  let s := match UpdateData.plan_id update_data with
           | Some (Some v) => Subscription.set_plan_id v s
           | _ => s
           end in
  let s := match UpdateData.status update_data with
           | Some v => Subscription.set_status v s
           | None => s
           end in
  let s := match UpdateData.end_date update_data with
           | Some v => Subscription.set_end_date v s
           | None => s
           end in
  match UpdateData.cancelled_at update_data with
  | Some v => Subscription.set_cancelled_at (Some v) s
  | None => s
  end.

(** [Plan.id == v] where [v] may be null. *)
Definition plan_id_is (v : option Z) (p : Plan.t) : bool :=
  match v with
  | Some n => Plan.id p =? n
  | None => false
  end.

(** [str(v)] for an optional integer. *)
Definition str_opt (v : option Z) : string :=
  match v with
  | Some n => str n
  | None => "None"
  end.

(** [update_subscription].  The three clock arguments are the three calls
    of [datetime.utcnow()], in the order of the source: in the computation
    of [days_left], in that of [new_end_date], and for [cancelled_at].
    The sum for [new_end_date] raises [OverflowError] when the date is
    beyond the calendar; nothing has been assigned by then. *)
Definition update_subscription (subscription_id : Z)
  (subscription_update : SubscriptionUpdate.t) (current_user : User.t)
  (utcnow_days_left utcnow_end_date utcnow_cancelled_at : Z)
  : Handler Subscription.t :=
  subscription <- first_or_raise subscriptions
    (fun s => Subscription.id s =? subscription_id)
    (HTTPException HTTP_404_NOT_FOUND
       ("Subscription with ID " ++ str subscription_id ++ " not found")) ;;
  raise_if (not_authorized current_user subscription)
    (HTTPException HTTP_403_FORBIDDEN
       "Not authorized to access this resource") ;;;
  let update_data := dict_exclude_unset subscription_update in
  update_data <-
    match UpdateData.plan_id update_data with
    | Some new_plan_id =>
        plan <- first_or_raise plans (plan_id_is new_plan_id)
          (HTTPException HTTP_404_NOT_FOUND
             ("Plan with ID " ++ str_opt new_plan_id ++ " not found")) ;;
        raise_if (negb (Plan.is_active plan))
          (HTTPException HTTP_400_BAD_REQUEST
             ("Plan with ID " ++ str_opt new_plan_id ++ " is not active")) ;;;
        let days_left :=
          days (Subscription.end_date subscription - utcnow_days_left) in
        let days_left := if days_left <? 0 then 0 else days_left in
        new_end_date <-
          try_ (plus_days utcnow_end_date
                  (Plan.duration_days plan + days_left)) ;;
        ret (UpdateData.mk (UpdateData.plan_id update_data)
               (UpdateData.status update_data) (Some new_end_date)
               (UpdateData.cancelled_at update_data))
    | None => ret update_data
    end ;;
  let update_data :=
    match UpdateData.status update_data with
    | Some (Some CANCELLED) =>
        UpdateData.mk (UpdateData.plan_id update_data)
          (UpdateData.status update_data) (UpdateData.end_date update_data)
          (Some utcnow_cancelled_at)
    | _ => update_data
    end in
  fun db =>
    let subscription := setattrs update_data subscription in
    Ok (subscription,
        with_subscriptions
          (assign_first (fun s => Subscription.id s =? subscription_id)
             (fun _ => subscription) (subscriptions db))
          db).

(** [cancel_subscription].  With a null status the f-string of the 400
    response dereferences [None] and the request ends in an
    [AttributeError]. *)
Definition cancel_subscription (subscription_id : Z) (current_user : User.t)
  (utcnow : Z) : Handler unit :=
  subscription <- first_or_raise subscriptions
    (fun s => Subscription.id s =? subscription_id)
    (HTTPException HTTP_404_NOT_FOUND
       ("Subscription with ID " ++ str subscription_id ++ " not found")) ;;
  raise_if (not_authorized current_user subscription)
    (HTTPException HTTP_403_FORBIDDEN
       "Not authorized to access this resource") ;;;
  match Subscription.status subscription with
  | Some ACTIVE =>
      fun db =>
        let subscription :=
          Subscription.set_cancelled_at (Some utcnow)
            (Subscription.set_status (Some CANCELLED) subscription) in
        Ok (tt,
            with_subscriptions
              (assign_first (fun s => Subscription.id s =? subscription_id)
                 (fun _ => subscription) (subscriptions db))
              db)
  | Some st =>
      raise (HTTPException HTTP_400_BAD_REQUEST
               ("Subscription is already " ++ value st))
  | None =>
      raise (Unhandled
               "AttributeError: 'NoneType' object has no attribute 'value'")
  end.

(** [check_expired]: admin only.  The sweep is queued as a background task
    and runs once the response has been built; its value is dropped and
    the response is a fixed message. *)
Definition check_expired (current_user : User.t)
  (fault : SubscriptionService.Fault) (utcnow : Z) (db : Database)
  (log : list SubscriptionService.LogRecord)
  : Database * list SubscriptionService.LogRecord * Result string :=
  match Jwt.get_current_admin_user current_user with
  | Raise e => (db, log, Raise e)
  | Ok _ =>
      let '(db, log, _) :=
        SubscriptionService.check_expired_subscriptions fault utcnow db log in
      (db, log, Ok "Expired subscription check triggered")
  end.

(** [current_user.id != user_id and not current_user.is_admin] *)
Definition not_self_or_admin (current_user : User.t) (user_id : Z) : bool :=
  negb (User.id current_user =? user_id) && negb (User.is_admin current_user).

(** The optional [status] criterion of the two listings:
    [if status: query = query.filter(Subscription.status == status)]. *)
Definition status_criterion (status : option SubscriptionStatus)
  (s : Subscription.t) : bool :=
  match status with
  | Some st => has_status st s
  | None => true
  end.

(** [get_all_subscriptions] (admin only). *)
Definition get_all_subscriptions (skip limit : Z)
  (status : option SubscriptionStatus) (current_user : User.t)
  : Handler (list Subscription.t) :=
  fun db =>
    match Jwt.get_current_admin_user current_user with
    | Raise e => Raise e
    | Ok _ =>
        match offset_limit_all skip limit
                (all (status_criterion status) (subscriptions db)) with
        | Ok rows => Ok (rows, db)
        | Raise e => Raise e
        end
    end.

(** The evaluation of [status.<attr>] where [status] is the query parameter
    of [get_user_subscriptions], which hides the module [fastapi.status] in
    the body of that function: the parameter is [None] or a member of
    [SubscriptionStatus], and neither has the attribute. *)
Definition status_attribute_error (status : option SubscriptionStatus)
  (attr : string) : Error :=
  Unhandled
    ("AttributeError: '"
     ++ match status with
        | None => "NoneType"
        | Some _ => "SubscriptionStatus"
        end
     ++ "' object has no attribute '" ++ attr ++ "'").

(** [get_user_subscriptions]. *)
Definition get_user_subscriptions (user_id : Z)
  (status : option SubscriptionStatus) (current_user : User.t)
  : Handler (list Subscription.t) :=
  user <- first_or_raise users (fun u => User.id u =? user_id)
    (status_attribute_error status "HTTP_404_NOT_FOUND") ;;
  raise_if (not_self_or_admin current_user user_id)
    (status_attribute_error status "HTTP_403_FORBIDDEN") ;;;
  fun db =>
    Ok (all (fun s => (Subscription.user_id s =? user_id)
                      && status_criterion status s)
          (subscriptions db), db).

(** [get_active_subscription]. *)
Definition get_active_subscription (user_id : Z) (current_user : User.t)
  : Handler Subscription.t :=
  user <- first_or_raise users (fun u => User.id u =? user_id)
    (HTTPException HTTP_404_NOT_FOUND
       ("User with ID " ++ str user_id ++ " not found")) ;;
  raise_if (not_self_or_admin current_user user_id)
    (HTTPException HTTP_403_FORBIDDEN
       "Not authorized to access this resource") ;;;
  first_or_raise subscriptions
    (fun s => (Subscription.user_id s =? user_id) && has_status ACTIVE s)
    (HTTPException HTTP_404_NOT_FOUND
       ("No active subscription found for user with ID " ++ str user_id)).

(** [get_subscription]. *)
Definition get_subscription (subscription_id : Z) (current_user : User.t)
  : Handler Subscription.t :=
  subscription <- first_or_raise subscriptions
    (fun s => Subscription.id s =? subscription_id)
    (HTTPException HTTP_404_NOT_FOUND
       ("Subscription with ID " ++ str subscription_id ++ " not found")) ;;
  raise_if (not_authorized current_user subscription)
    (HTTPException HTTP_403_FORBIDDEN
       "Not authorized to access this resource") ;;;
  ret subscription.

End Routes.

(** ** app/routes/plans.py *)
Module PlanRoutes.

(** [get_all_plans]. *)
Definition get_all_plans (skip limit : Z) (active_only : bool)
  (current_user : User.t) : Handler (list Plan.t) :=
  fun db =>
    match offset_limit_all skip limit
            (if active_only then all Plan.is_active (plans db)
             else plans db) with
    | Ok rows => Ok (rows, db)
    | Raise e => Raise e
    end.



End PlanRoutes.

Import Routes SubscriptionService.
Import PlanRoutes.

(** ** Vocabulary of the lifecycle specification *)

(** The error kinds of the specification.  The routes report a missing
    record with status 404, a refused business rule with status 400 and a
    refused requester with status 403; these are the kinds [NotFound],
    [Conflict] and [Forbidden].  Anything else is an internal error. *)
Inductive ErrorKind : Type := NotFound | Conflict | Forbidden | InternalError.

Definition error_kind (e : Error) : ErrorKind :=
  match e with
  | HTTPException code _ =>
      if code =? HTTP_404_NOT_FOUND then NotFound
      else if code =? HTTP_400_BAD_REQUEST then Conflict
      else if code =? HTTP_403_FORBIDDEN then Forbidden
      else InternalError
  | Unhandled _ => InternalError
  end.

(** A user with this identifier exists. *)
Definition user_exists (db : Database) (uid : Z) : Prop :=
  exists u, In u (users db) /\ User.id u = uid.

(** The plan, resp. the subscription, with this identifier. *)
Definition lookup_plan (db : Database) (pid : Z) : option Plan.t :=
  first (fun p => Plan.id p =? pid) (plans db).

Definition lookup_subscription (db : Database) (sid : Z)
  : option Subscription.t :=
  first (fun s => Subscription.id s =? sid) (subscriptions db).

(** The date [n] days after [t] exists for Python: [timedelta(days=n)] can
    be built and [t] plus [n] days of 86400000000 microseconds is a
    datetime, that is, lies before the year 10000. *)
Definition representable (t n : Z) : Prop :=
  Z.abs n <= 999999999
  /\ 0 <= t + n * 86400000000 < 3652059 * 86400000000.

(** The end date the specification gives for a plan change at the single
    instant [now]: [now] plus the [p] days of the new plan plus the whole
    days left, [max 0 (floor ((end_old - now) / 1 day))]. *)
Definition carried_end_date (now p end_old : Z) : Z :=
  now + (p + Z.max 0 ((end_old - now) / 86400000000)) * 86400000000.

(** The requester is the owner of the subscription or an administrator. *)
Definition owner_or_admin (requester : User.t) (s : Subscription.t) : Prop :=
  User.id requester = Subscription.user_id s \/ User.is_admin requester = true.

(** The user holds a subscription whose status is [ACTIVE]. *)
Definition holds_active (db : Database) (uid : Z) : Prop :=
  exists s, In s (subscriptions db)
            /\ Subscription.user_id s = uid
            /\ Subscription.status s = Some ACTIVE.

(** The number of [ACTIVE] rows of a user. *)
Definition active_of (uid : Z) (s : Subscription.t) : bool :=
  (Subscription.user_id s =? uid) && has_status ACTIVE s.

Definition active_count (uid : Z) (table : list Subscription.t) : nat :=
  List.length (filter (active_of uid) table).

(** The single-active invariant. *)
Definition single_active (db : Database) : Prop :=
  forall uid, (active_count uid (subscriptions db) <= 1)%nat.

(** The coupling of [cancelled_at] and [status], and its two halves. *)
Definition stamped (s : Subscription.t) : Prop :=
  Subscription.status s = Some CANCELLED -> Subscription.cancelled_at s <> None.

Definition coupled (s : Subscription.t) : Prop :=
  Subscription.cancelled_at s <> None <-> Subscription.status s = Some CANCELLED.

(** The operations of the lifecycle manager, each with the arguments and
    clock readings of one call. *)
Inductive Operation : Type :=
| Create (subscription : SubscriptionCreate.t) (requester : User.t)
    (utcnow : Z)
| Update (subscription_id : Z) (subscription_update : SubscriptionUpdate.t)
    (requester : User.t)
    (utcnow_days_left utcnow_end_date utcnow_cancelled_at : Z)
| Cancel (subscription_id : Z) (requester : User.t) (utcnow : Z)
| SweepExpired (fault : Fault) (utcnow : Z).

(** The database after one operation. *)
Definition perform (db : Database) (op : Operation) : Database :=
  match op with
  | Create b u t => fst (run (create_subscription b u t) db)
  | Update sid upd u t1 t2 t3 =>
      fst (run (update_subscription sid upd u t1 t2 t3) db)
  | Cancel sid u t => fst (run (cancel_subscription sid u t) db)
  | SweepExpired f t => fst (fst (check_expired_subscriptions f t db []))
  end.

(** The database after a sequence of operations. *)
Definition perform_all (ops : list Operation) (db : Database) : Database :=
  fold_left perform ops db.

(** [Create], [Cancel] and [SweepExpired], as opposed to the update route. *)
Definition is_update (op : Operation) : bool :=
  match op with
  | Update _ _ _ _ _ _ => true
  | _ => false
  end.

(** An update that assigns a status other than [CANCELLED]. *)
Definition assigns_other_status (op : Operation) : bool :=
  match op with
  | Update _ upd _ _ _ _ =>
      match SubscriptionUpdate.status upd with
      | Some (Some CANCELLED) | None => false
      | Some _ => true
      end
  | _ => false
  end.

(** The row a successful cancellation at time [utcnow] writes. *)
Definition cancel_row (utcnow : Z) (s : Subscription.t) : Subscription.t :=
  Subscription.set_cancelled_at (Some utcnow)
    (Subscription.set_status (Some CANCELLED) s).

(** The criterion [Subscription.id == sid]. *)
Definition has_id (sid : Z) (s : Subscription.t) : bool :=
  Subscription.id s =? sid.

(** The plans table with every price replaced, nothing else changed. *)
Definition reprice (r : Plan.t -> Q) (db : Database) : Database :=
  with_plans (map (fun p => Plan.set_price (r p) p) (plans db)) db.

(** What one run of the sweep at time [utcnow] may do to a row [s], giving
    [s']: nothing, or the move from [ACTIVE] to [EXPIRED] of a row strictly
    past its end date; and nothing at all to a row that is not past its end
    date or not [ACTIVE]. *)
Definition sweep_step (utcnow : Z) (s s' : Subscription.t) : Prop :=
  (s' = s
   \/ (Subscription.status s = Some ACTIVE
       /\ Subscription.end_date s < utcnow
       /\ s' = Subscription.set_status (Some EXPIRED) s))
  /\ (utcnow <= Subscription.end_date s -> s' = s)
  /\ (Subscription.status s <> Some ACTIVE -> s' = s).

(** The three results of one run of the sweep. *)
Definition sweep_db (fault : Fault) (utcnow : Z) (db : Database)
  (log : list LogRecord) : Database :=
  fst (fst (check_expired_subscriptions fault utcnow db log)).

Definition sweep_log (fault : Fault) (utcnow : Z) (db : Database)
  (log : list LogRecord) : list LogRecord :=
  snd (fst (check_expired_subscriptions fault utcnow db log)).

Definition sweep_value (fault : Fault) (utcnow : Z) (db : Database)
  (log : list LogRecord) : PyObject :=
  snd (check_expired_subscriptions fault utcnow db log).

(** The rows a run at time [utcnow] selects. *)
Definition selected (utcnow : Z) (db : Database) : list Subscription.t :=
  all (overdue utcnow) (subscriptions db).

(** ** Sample data *)
Module Sample.

Definition alice : User.t := User.mk 1 "alice" true false.
Definition bob : User.t := User.mk 2 "bob" true false.
Definition root : User.t := User.mk 3 "root" true true.

Definition monthly : Plan.t := Plan.mk 1 "monthly" (10 # 1) 30 true.
Definition twenty : Plan.t := Plan.mk 2 "twenty" (15 # 2) 20 true.
Definition retired : Plan.t := Plan.mk 3 "retired" (99 # 1) 365 false.

(** Three users, three plans, no subscription yet. *)
Definition empty : Database :=
  mkDatabase [alice; bob; root] [monthly; twenty; retired] [] 1.

(** Alice has bought the monthly plan at time 0. *)
Definition bought : Database :=
  fst (run (create_subscription (SubscriptionCreate.mk 1 1) alice 0) empty).

(** ... and has cancelled it at time 5. *)
Definition cancelled : Database :=
  fst (run (cancel_subscription 1 alice 5) bought).

(** A history from the empty sample: Alice buys the monthly plan, a second
    purchase is refused, she moves to the plan of 20 days and cancels; Bob
    buys the plan of 20 days for her and the monthly plan for himself, the
    administrator sets Bob's subscription to cancelled, and a late sweep
    (whose first attempt fails at the commit) expires what is left. *)
Definition history : list Operation :=
  [ Create (SubscriptionCreate.mk 1 1) alice 0;
    Create (SubscriptionCreate.mk 1 2) alice 1;
    Update 1 (SubscriptionUpdate.mk (Some (Some 2)) None) alice 2 2 2;
    Cancel 1 alice 5;
    Create (SubscriptionCreate.mk 1 2) bob 6;
    Create (SubscriptionCreate.mk 2 1) bob 7;
    Update 3 (SubscriptionUpdate.mk None (Some (Some CANCELLED))) root 8 8 8;
    SweepExpired (CommitRaises "connection lost") (400 * DAY);
    SweepExpired NoFault (400 * DAY) ].


(** A plan of 4000000 days, which the plan schema accepts, and the sample
    databases with that plan. *)
Definition aeon : Plan.t := Plan.mk 4 "aeon" (1 # 1) 4000000 true.

Definition empty_with_aeon : Database :=
  with_plans [monthly; twenty; retired; aeon] empty.

Definition bought_with_aeon : Database :=
  with_plans [monthly; twenty; retired; aeon] bought.

(** The first instant of the year 2025. *)
Definition new_year_2025 : Z := 739251 * DAY.

(** The owner sets the status of her cancelled subscription back to
    [ACTIVE] through the update route. *)
Definition reactivate : Operation :=
  Update 1 (SubscriptionUpdate.mk None (Some (Some ACTIVE))) alice 9 9 9.

End Sample.

(** ** Further vocabulary *)

(** The requester is the user [uid] or an administrator. *)
Definition self_or_admin (requester : User.t) (uid : Z) : Prop :=
  User.id requester = uid \/ User.is_admin requester = true.

(** The primary keys of the subscriptions are pairwise distinct and the
    sequence is ahead of all of them. *)
Definition keys_fresh (db : Database) : Prop :=
  NoDup (map Subscription.id (subscriptions db))
  /\ Forall (fun s => Subscription.id s < subscriptions_id_seq db)
       (subscriptions db).

(** An update that assigns the status [ACTIVE]. *)
Definition assigns_active (op : Operation) : bool :=
  match op with
  | Update _ upd _ _ _ _ =>
      match SubscriptionUpdate.status upd with
      | Some (Some ACTIVE) => true
      | _ => false
      end
  | _ => false
  end.

(** The clock reading an operation writes into a date: [start_date] for
    Create, the base of the new [end_date] for an update. *)
Definition op_clock (op : Operation) : option Z :=
  match op with
  | Create _ _ t => Some t
  | Update _ _ _ _ t2 _ => Some t2
  | _ => None
  end.

(** The readings of a sequence of operations never go back, starting from
    [now]. *)
Fixpoint clock_advances (now : Z) (ops : list Operation) : Prop :=
  match ops with
  | [] => True
  | op :: rest =>
      match op_clock op with
      | Some t => now <= t /\ clock_advances t rest
      | None => clock_advances now rest
      end
  end.

(** How a row may differ from an earlier state of itself when only Create,
    Cancel and SweepExpired have run: key, owner, plan and dates are the
    same, and a row that was not [ACTIVE] is the same row. *)
Definition evolves (s s' : Subscription.t) : Prop :=
  Subscription.id s' = Subscription.id s
  /\ Subscription.user_id s' = Subscription.user_id s
  /\ Subscription.plan_id s' = Subscription.plan_id s
  /\ Subscription.start_date s' = Subscription.start_date s
  /\ Subscription.end_date s' = Subscription.end_date s
  /\ (Subscription.status s <> Some ACTIVE -> s' = s).

(** ** Sanity checks on concrete inputs *)

Example str_42 : str 42 = "42".
Proof. reflexivity. Qed.

Example days_floor : days (- 1) = - 1 /\ days (10 * DAY + 5) = 10.
Proof. split; reflexivity. Qed.

(** A two-byte character counts once. *)
Example len_counts_characters :
  len (String (Ascii.ascii_of_nat 195) (String (Ascii.ascii_of_nat 169) "a"))
  = 2.
Proof. reflexivity. Qed.

(** The last day of the calendar, and the days beyond it. *)
Example plus_days_range :
  plus_days 0 3652058 = Ok (3652058 * DAY)
  /\ plus_days 0 3652059
     = Raise (Unhandled "OverflowError: date value out of range")
  /\ plus_days Sample.new_year_2025 4000000
     = Raise (Unhandled "OverflowError: date value out of range")
  /\ plus_days 0 1000000000
     = Raise (Unhandled
                "OverflowError: days=1000000000; must have magnitude <= 999999999").
Proof. repeat split. Qed.

Example bought_rows :
  subscriptions Sample.bought
  = [Subscription.mk 1 1 1 0 (30 * DAY) (Some ACTIVE) None].
Proof. reflexivity. Qed.

Example create_twice :
  run (create_subscription (SubscriptionCreate.mk 1 2) Sample.alice 7)
    Sample.bought
  = (Sample.bought,
     Raise (HTTPException 400 "User already has an active subscription")).
Proof. reflexivity. Qed.

Example cancelled_rows :
  subscriptions Sample.cancelled
  = [Subscription.mk 1 1 1 0 (30 * DAY) (Some CANCELLED) (Some 5)].
Proof. reflexivity. Qed.

Example cancel_twice :
  run (cancel_subscription 1 Sample.alice 9) Sample.cancelled
  = (Sample.cancelled,
     Raise (HTTPException 400 "Subscription is already CANCELLED")).
Proof. reflexivity. Qed.

(** The example of the specification: 10 days remaining, a plan of 20 days,
    the new end date is 30 days from now. *)
Example change_plan_30 :
  let now := 20 * DAY in
  option_map Subscription.end_date
    (lookup_subscription
       (fst (run (update_subscription 1
                    (SubscriptionUpdate.mk (Some (Some 2)) None)
                    Sample.alice now now now) Sample.bought)) 1)
  = Some (now + 30 * DAY).
Proof. reflexivity. Qed.

(** The sweep example of the specification: one row expires, then none. *)
Example sweep_example :
  let now := 30 * DAY + 1 in
  let '(db1, log1, r1) := check_expired_subscriptions NoFault now Sample.bought [] in
  let '(db2, log2, r2) := check_expired_subscriptions NoFault now db1 [] in
  map Subscription.status (subscriptions db1) = [Some EXPIRED]
  /\ last log1 (INFO, "") = (INFO, "Updated 1 expired subscriptions")
  /\ last log2 (INFO, "") = (INFO, "Updated 0 expired subscriptions")
  /\ db2 = db1 /\ r1 = PyNone.
Proof. repeat split. Qed.

(** ** Lemmas on tables *)
Section Tables.
Context {A : Type}.
Variables (p : A -> bool).

Lemma first_In (table : list A) (x : A) :
  first p table = Some x -> In x table /\ p x = true.
Proof. apply find_some. Qed.

Lemma first_None (table : list A) :
  first p table = None -> forall x, In x table -> p x = false.
Proof. apply find_none. Qed.

Lemma first_exists (table : list A) (x : A) :
  In x table -> p x = true -> exists y, first p table = Some y.
Proof.
  intros Hin Hp. destruct (first p table) as [y|] eqn:E.
  - now exists y.
  - apply first_None with (x := x) in E; congruence.
Qed.

Lemma first_None_filter (table : list A) :
  first p table = None -> filter p table = [].
Proof.
  induction table as [|x rest IH]; simpl; intros H; [reflexivity|].
  destruct (p x); [discriminate | auto].
Qed.

Lemma assign_first_length (f : A -> A) (table : list A) :
  List.length (assign_first p f table) = List.length table.
Proof.
  induction table as [|x rest IH]; simpl; [reflexivity|].
  destruct (p x); simpl; congruence.
Qed.

(** Rewriting through the object returned by [first]: the constant
    assignment of the mutated object is the assignment of the mutation. *)
Lemma assign_first_found (g : A -> A) (table : list A) (x : A) :
  first p table = Some x ->
  assign_first p (fun _ => g x) table = assign_first p g table.
Proof.
  induction table as [|y rest IH]; simpl; intros H; [discriminate|].
  destruct (p y).
  - now inversion H.
  - f_equal; auto.
Qed.

Lemma first_assign_first (g : A -> A) (table : list A) (x : A) :
  first p table = Some x -> p (g x) = true ->
  first p (assign_first p g table) = Some (g x).
Proof.
  induction table as [|y rest IH]; simpl; intros H Hg; [discriminate|].
  destruct (p y) eqn:E; simpl.
  - inversion H; subst. now rewrite Hg.
  - rewrite E. auto.
Qed.

Lemma first_None_assign_first (g : A -> A) (table : list A) :
  first p table = None -> assign_first p g table = table.
Proof.
  induction table as [|y rest IH]; simpl; intros H; [reflexivity|].
  destruct (p y); [discriminate|]. f_equal; auto.
Qed.

(** A property of rows that the assignment keeps is kept by the table. *)
Lemma assign_first_Forall (P : A -> Prop) (g : A -> A) (table : list A) :
  (forall x, P x -> P (g x)) ->
  Forall P table -> Forall P (assign_first p g table).
Proof.
  intros Hg. induction 1 as [|y rest Hy Hrest IH]; simpl; [constructor|].
  destruct (p y); constructor; auto.
Qed.

(** Counting rows: an assignment, or a pass over all rows, that never
    makes a row satisfy [q] cannot increase the number of [q]-rows. *)
Lemma count_assign_first_le (q : A -> bool) (g : A -> A) (table : list A) :
  (forall x, q (g x) = true -> q x = true) ->
  (List.length (filter q (assign_first p g table))
   <= List.length (filter q table))%nat.
Proof.
  intros Hg. induction table as [|y rest IH]; simpl; [lia|].
  destruct (p y); simpl.
  - specialize (Hg y).
    destruct (q (g y)), (q y); simpl; try lia; now specialize (Hg eq_refl).
  - destruct (q y); simpl; lia.
Qed.

Lemma count_map_le (q : A -> bool) (g : A -> A) (table : list A) :
  (forall x, q (g x) = true -> q x = true) ->
  (List.length (filter q (map g table)) <= List.length (filter q table))%nat.
Proof.
  intros Hg. induction table as [|y rest IH]; simpl; [lia|].
  specialize (Hg y).
  destruct (q (g y)), (q y); simpl; try lia; now specialize (Hg eq_refl).
Qed.

End Tables.

Lemma status_eqb_eq (a b : SubscriptionStatus) : status_eqb a b = true <-> a = b.
Proof. destruct a, b; simpl; split; congruence. Qed.

Lemma has_status_iff (st : SubscriptionStatus) (s : Subscription.t) :
  has_status st s = true <-> Subscription.status s = Some st.
Proof.
  unfold has_status. destruct (Subscription.status s) as [st'|].
  - rewrite status_eqb_eq. split; congruence.
  - split; discriminate.
Qed.

Lemma active_of_iff (uid : Z) (s : Subscription.t) :
  active_of uid s = true
  <-> Subscription.user_id s = uid /\ Subscription.status s = Some ACTIVE.
Proof.
  unfold active_of. now rewrite andb_true_iff, Z.eqb_eq, has_status_iff.
Qed.

Lemma holds_active_first (db : Database) (uid : Z) :
  holds_active db uid
  <-> exists s, first (active_of uid) (subscriptions db) = Some s.
Proof.
  split.
  - intros (s & Hin & Hu & Hs).
    apply first_exists with (x := s); [assumption|].
    now apply active_of_iff.
  - intros (s & H). apply first_In in H as [Hin H].
    apply active_of_iff in H. now exists s.
Qed.

Lemma user_exists_first (db : Database) (uid : Z) :
  user_exists db uid
  <-> exists u, first (fun u => User.id u =? uid) (users db) = Some u.
Proof.
  split.
  - intros (u & Hin & Hu).
    apply first_exists with (x := u); [assumption|]. now apply Z.eqb_eq.
  - intros (u & H). apply first_In in H as [Hin H].
    apply Z.eqb_eq in H. now exists u.
Qed.

Lemma owner_or_admin_authorized (requester : User.t) (s : Subscription.t) :
  owner_or_admin requester s <-> not_authorized requester s = false.
Proof.
  unfold owner_or_admin, not_authorized.
  rewrite andb_false_iff, !negb_false_iff, Z.eqb_eq. reflexivity.
Qed.

(** Unfolding the handler combinators. *)
Ltac unfold_handler :=
  unfold run, bind, first_or_raise, raise_if, raise, ret in *.

(** ** Date arithmetic *)

Lemma plus_days_Ok (t n e : Z) :
  plus_days t n = Ok e <-> representable t n /\ e = t + n * 86400000000.
Proof.
  unfold plus_days, timedelta, datetime_add, is_datetime, representable,
    timedelta_days.
  change (MAXORDINAL * DAY) with (3652059 * 86400000000).
  change DAY with 86400000000.
  destruct (Z.leb_spec (Z.abs n) 999999999) as [Hn | Hn].
  - destruct (Z.leb_spec 0 (t + n * 86400000000)) as [H0 | H0];
      destruct (Z.ltb_spec (t + n * 86400000000) (3652059 * 86400000000))
        as [H1 | H1]; simpl; split;
      try (intros [= <-]; auto); try discriminate;
      try (intros [[_ [? ?]] _]; lia).
    intros [_ ->]. reflexivity.
  - split; [discriminate | intros [[? _] _]; lia].
Qed.

Lemma plus_days_representable (t n : Z) :
  representable t n -> plus_days t n = Ok (t + n * 86400000000).
Proof. intros H. apply plus_days_Ok. auto. Qed.

Lemma plus_days_Raise (t n : Z) (e : Error) :
  plus_days t n = Raise e ->
  ~ representable t n /\ exists msg, e = Unhandled msg.
Proof.
  intros H. split.
  - intros Hr. rewrite (plus_days_representable t n Hr) in H. discriminate.
  - unfold plus_days, timedelta, datetime_add in H.
    destruct (Z.abs n <=? 999999999).
    + destruct (is_datetime _); [discriminate|]. injection H as <-. eauto.
    + injection H as <-. eauto.
Qed.

(** ** Create *)

(** The four guards of [create_subscription], in the order of the source,
    and the commit. *)
Lemma run_create_subscription (subscription : SubscriptionCreate.t)
  (requester : User.t) (utcnow : Z) (db : Database) :
  let uid := SubscriptionCreate.user_id subscription in
  let pid := SubscriptionCreate.plan_id subscription in
  run (create_subscription subscription requester utcnow) db
  = match first (fun u => User.id u =? uid) (users db) with
    | None =>
        (db, Raise (HTTPException 404
                      ("User with ID " ++ str uid ++ " not found")))
    | Some _ =>
        match lookup_plan db pid with
        | None =>
            (db, Raise (HTTPException 404
                          ("Plan with ID " ++ str pid ++ " not found")))
        | Some plan =>
            if Plan.is_active plan then
              match first (active_of uid) (subscriptions db) with
              | Some _ =>
                  (db, Raise (HTTPException 400
                                "User already has an active subscription"))
              | None =>
                  match plus_days utcnow (Plan.duration_days plan) with
                  | Raise e => (db, Raise e)
                  | Ok end_date =>
                      let s :=
                        Subscription.mk (subscriptions_id_seq db) uid pid
                          utcnow end_date (Some ACTIVE) None in
                      (mkDatabase (users db) (plans db)
                         (app (subscriptions db) [s])
                         (subscriptions_id_seq db + 1), Ok s)
                  end
              end
            else
              (db, Raise (HTTPException 400
                            ("Plan with ID " ++ str pid ++ " is not active")))
        end
    end.
Proof.
  cbv zeta. unfold create_subscription, lookup_plan. unfold_handler.
  destruct (first _ (users db)); [|reflexivity].
  destruct (first _ (plans db)) as [plan|]; [|reflexivity].
  destruct (Plan.is_active plan); simpl; [|reflexivity].
  fold (active_of (SubscriptionCreate.user_id subscription)).
  destruct (first _ (subscriptions db)); [reflexivity|].
  destruct (plus_days utcnow (Plan.duration_days plan)); reflexivity.
Qed.

Lemma run_create_subscription_ok (subscription : SubscriptionCreate.t)
  (requester : User.t) (utcnow : Z) (db : Database) (plan : Plan.t) :
  let uid := SubscriptionCreate.user_id subscription in
  let pid := SubscriptionCreate.plan_id subscription in
  user_exists db uid -> lookup_plan db pid = Some plan ->
  Plan.is_active plan = true -> ~ holds_active db uid ->
  representable utcnow (Plan.duration_days plan) ->
  let s :=
    Subscription.mk (subscriptions_id_seq db) uid pid utcnow
      (utcnow + Plan.duration_days plan * 86400000000) (Some ACTIVE) None in
  run (create_subscription subscription requester utcnow) db
  = (mkDatabase (users db) (plans db) (app (subscriptions db) [s])
       (subscriptions_id_seq db + 1), Ok s).
Proof.
  intros uid pid Huser Hplan Hact Hfree Hrep s.
  rewrite run_create_subscription. fold uid pid.
  apply user_exists_first in Huser as [u ->]. rewrite Hplan, Hact.
  rewrite (plus_days_representable _ _ Hrep).
  destruct (first (active_of uid) (subscriptions db)) as [a|] eqn:E;
    [|reflexivity].
  exfalso. apply Hfree, holds_active_first. now exists a.
Qed.

(** C3, as stated, fails for a plan that outlasts the calendar.  The plan
    schema accepts a duration of 4000000 days; at the start of 2025 Alice
    exists, the plan exists and is active, Alice holds no Active
    subscription, and yet Create raises [OverflowError] and stores
    nothing. *)
Lemma create_beyond_calendar_counterexample :
  user_exists Sample.empty_with_aeon 1
  /\ lookup_plan Sample.empty_with_aeon 4 = Some Sample.aeon
  /\ Plan.is_active Sample.aeon = true
  /\ ~ holds_active Sample.empty_with_aeon 1
  /\ run (create_subscription (SubscriptionCreate.mk 1 4) Sample.alice
            Sample.new_year_2025) Sample.empty_with_aeon
     = (Sample.empty_with_aeon,
        Raise (Unhandled "OverflowError: date value out of range")).
Proof.
  split; [exists Sample.alice; split; [simpl; tauto | reflexivity]|].
  split; [reflexivity|]. split; [reflexivity|].
  split; [intros (s & [] & _) | reflexivity].
Qed.

(** C3 (amended) -- Create(userID, planID).  If the user and the plan
    exist, the plan is active, the user holds no Active subscription and
    the date [plan.duration_days] days after now is one Python can
    represent, the call persists (appends to the table, with a fresh key
    drawn from the sequence) and returns a new subscription with
    [start_date = now], [end_date = now + plan.duration_days] days (of
    86400000000 microseconds) and status Active.  It fails, leaving the
    database as it was, with NotFound when the user or the plan is missing,
    and with Conflict when the plan is inactive or the user already holds
    an Active subscription. *)
Theorem create_subscription_outcome (subscription : SubscriptionCreate.t)
  (requester : User.t) (utcnow : Z) (db : Database) :
  let uid := SubscriptionCreate.user_id subscription in
  let pid := SubscriptionCreate.plan_id subscription in
  let response := run (create_subscription subscription requester utcnow) db in
  (forall plan,
      user_exists db uid -> lookup_plan db pid = Some plan ->
      Plan.is_active plan = true -> ~ holds_active db uid ->
      representable utcnow (Plan.duration_days plan) ->
      exists s,
        response
        = (mkDatabase (users db) (plans db) (app (subscriptions db) [s])
             (subscriptions_id_seq db + 1), Ok s)
        /\ Subscription.id s = subscriptions_id_seq db
        /\ Subscription.user_id s = uid
        /\ Subscription.plan_id s = pid
        /\ Subscription.start_date s = utcnow
        /\ Subscription.end_date s
           = utcnow + Plan.duration_days plan * 86400000000
        /\ Subscription.status s = Some ACTIVE
        /\ Subscription.cancelled_at s = None)
  /\ (~ user_exists db uid \/ lookup_plan db pid = None ->
      exists e, response = (db, Raise e) /\ error_kind e = NotFound)
  /\ (forall plan,
         user_exists db uid -> lookup_plan db pid = Some plan ->
         Plan.is_active plan = false \/ holds_active db uid ->
         exists e, response = (db, Raise e) /\ error_kind e = Conflict).
Proof.
  intros uid pid response. subst response.
  pose proof (user_exists_first db uid) as Hu.
  pose proof (holds_active_first db uid) as Ha.
  split; [|rewrite run_create_subscription; fold uid pid; split].
  - intros plan Huser Hplan Hact Hfree Hrep.
    rewrite (run_create_subscription_ok subscription requester utcnow db plan
               Huser Hplan Hact Hfree Hrep).
    eexists. split; [reflexivity|]. simpl. tauto.
  - intros [Hno | Hno].
    + destruct (first _ (users db)) as [u|] eqn:E.
      * exfalso. apply Hno, Hu. now exists u.
      * eexists. split; reflexivity.
    + rewrite Hno. destruct (first _ (users db)); eexists; split; reflexivity.
  - intros plan Huser Hplan Hbad.
    apply Hu in Huser as [u ->]. rewrite Hplan.
    destruct (Plan.is_active plan) eqn:Hact.
    + destruct Hbad as [Hbad | Hbad]; [discriminate|].
      apply Ha in Hbad as [s ->]. eexists. split; reflexivity.
    + eexists. split; reflexivity.
Qed.

(** Bob buys the monthly plan at time 7 while Alice already holds hers. *)
Lemma create_subscription_outcome_witness :
  exists s,
    run (create_subscription (SubscriptionCreate.mk 2 1) Sample.bob 7)
      Sample.bought
    = (mkDatabase (users Sample.bought) (plans Sample.bought)
         (app (subscriptions Sample.bought) [s])
         (subscriptions_id_seq Sample.bought + 1), Ok s)
    /\ Subscription.id s = subscriptions_id_seq Sample.bought
    /\ Subscription.user_id s = 2
    /\ Subscription.plan_id s = 1
    /\ Subscription.start_date s = 7
    /\ Subscription.end_date s = 7 + 30 * 86400000000
    /\ Subscription.status s = Some ACTIVE
    /\ Subscription.cancelled_at s = None.
Proof.
  apply (proj1 (create_subscription_outcome (SubscriptionCreate.mk 2 1)
                  Sample.bob 7 Sample.bought) Sample.monthly).
  - exists Sample.bob. split; [simpl; tauto | reflexivity].
  - reflexivity.
  - reflexivity.
  - intros (s & Hin & Hu & _). simpl in Hin.
    destruct Hin as [<- | []]. discriminate Hu.
  - unfold representable. simpl. lia.
Defined.

(** ** Cancel *)

Lemma run_cancel_subscription (sid : Z) (requester : User.t) (utcnow : Z)
  (db : Database) :
  run (cancel_subscription sid requester utcnow) db
  = match lookup_subscription db sid with
    | None =>
        (db, Raise (HTTPException 404
                      ("Subscription with ID " ++ str sid ++ " not found")))
    | Some s =>
        if not_authorized requester s then
          (db, Raise (HTTPException 403
                        "Not authorized to access this resource"))
        else
          match Subscription.status s with
          | Some ACTIVE =>
              (with_subscriptions
                 (assign_first (has_id sid) (cancel_row utcnow)
                    (subscriptions db)) db, Ok tt)
          | Some st =>
              (db, Raise (HTTPException 400
                            ("Subscription is already " ++ value st)))
          | None =>
              (db, Raise (Unhandled
                 "AttributeError: 'NoneType' object has no attribute 'value'"))
          end
    end.
Proof.
  unfold cancel_subscription, lookup_subscription. unfold_handler.
  fold (has_id sid).
  destruct (first (has_id sid) (subscriptions db)) as [s|] eqn:E;
    [|reflexivity].
  destruct (not_authorized requester s); simpl; [reflexivity|].
  destruct (Subscription.status s) as [[]|]; try reflexivity.
  fold (cancel_row utcnow s).
  now rewrite (assign_first_found (has_id sid) (cancel_row utcnow) _ s E).
Qed.

Lemma lookup_after_assign (sid : Z) (g : Subscription.t -> Subscription.t)
  (db : Database) (s : Subscription.t) :
  lookup_subscription db sid = Some s ->
  Subscription.id (g s) = Subscription.id s ->
  lookup_subscription
    (with_subscriptions (assign_first (has_id sid) g (subscriptions db)) db)
    sid
  = Some (g s).
Proof.
  unfold lookup_subscription. fold (has_id sid). simpl. intros H Hid.
  apply first_assign_first; [assumption|].
  apply first_In in H as [_ H]. unfold has_id in *. now rewrite Hid.
Qed.



(** ** ChangePlan / SetStatus *)

(** The guards of [update_subscription] and its commit: the row is the
    image under [setattrs] of the final [update_data]. *)
Lemma run_update_subscription (sid : Z) (upd : SubscriptionUpdate.t)
  (requester : User.t) (t1 t2 t3 : Z) (db : Database) :
  let stamp :=
    match SubscriptionUpdate.status upd with
    | Some (Some CANCELLED) => Some t3
    | _ => None
    end in
  let commit (new_end_date : option Z) :=
    let update_data :=
      UpdateData.mk (SubscriptionUpdate.plan_id upd)
        (SubscriptionUpdate.status upd) new_end_date stamp in
    fun s : Subscription.t =>
      (with_subscriptions
         (assign_first (has_id sid) (setattrs update_data) (subscriptions db))
         db, Ok (setattrs update_data s)) in
  run (update_subscription sid upd requester t1 t2 t3) db
  = match lookup_subscription db sid with
    | None =>
        (db, Raise (HTTPException 404
                      ("Subscription with ID " ++ str sid ++ " not found")))
    | Some s =>
        if not_authorized requester s then
          (db, Raise (HTTPException 403
                        "Not authorized to access this resource"))
        else
          match SubscriptionUpdate.plan_id upd with
          | None => commit None s
          | Some v =>
              match first (plan_id_is v) (plans db) with
              | None =>
                  (db, Raise (HTTPException 404
                                ("Plan with ID " ++ str_opt v ++ " not found")))
              | Some plan =>
                  if Plan.is_active plan then
                    let days_left := days (Subscription.end_date s - t1) in
                    let days_left :=
                      if days_left <? 0 then 0 else days_left in
                    match plus_days t2
                            (Plan.duration_days plan + days_left) with
                    | Ok new_end_date => commit (Some new_end_date) s
                    | Raise e => (db, Raise e)
                    end
                  else
                    (db, Raise (HTTPException 400
                                  ("Plan with ID " ++ str_opt v
                                   ++ " is not active")))
              end
          end
    end.
Proof.
  cbv zeta. unfold update_subscription, lookup_subscription, dict_exclude_unset.
  unfold_handler. fold (has_id sid).
  destruct (first (has_id sid) (subscriptions db)) as [s|] eqn:E;
    [|reflexivity].
  destruct (not_authorized requester s); simpl; [reflexivity|].
  destruct (SubscriptionUpdate.plan_id upd) as [v|]; simpl.
  - destruct (first (plan_id_is v) (plans db)) as [plan|]; [|reflexivity].
    destruct (Plan.is_active plan); simpl; [|reflexivity].
    unfold try_. destruct (plus_days t2 _); [|reflexivity].
    destruct (SubscriptionUpdate.status upd) as [[[]|]|]; simpl;
      (erewrite assign_first_found by exact E); reflexivity.
  - destruct (SubscriptionUpdate.status upd) as [[[]|]|]; simpl;
      (erewrite assign_first_found by exact E); reflexivity.
Qed.

Lemma clamp_max (n : Z) : (if n <? 0 then 0 else n) = Z.max 0 n.
Proof. destruct (Z.ltb_spec n 0); lia. Qed.

(** Whole days carried forward plus at least one day of the new plan reach
    beyond the old end date. *)
Lemma carry_forward_extends (e t1 t2 p : Z) :
  0 < p -> t1 <= t2 ->
  e < t2 + timedelta_days (p + Z.max 0 (days (e - t1))).
Proof.
  unfold timedelta_days, days. intros Hp Ht.
  assert (HD : 0 < DAY) by reflexivity.
  pose proof (Z.div_mod (e - t1) DAY ltac:(lia)) as Hdm.
  pose proof (Z.mod_pos_bound (e - t1) DAY HD) as Hr.
  set (q := (e - t1) / DAY) in *. set (r := (e - t1) mod DAY) in *.
  clearbody q r. generalize dependent DAY. intros D HD Hdm Hr.
  destruct (Z.max_spec 0 q) as [[Hq ->] | [Hq ->]]; nia.
Qed.

Lemma first_plan_reprice (r : Plan.t -> Q) (v : option Z) (ps : list Plan.t) :
  first (plan_id_is v) (map (fun p => Plan.set_price (r p) p) ps)
  = option_map (fun p => Plan.set_price (r p) p) (first (plan_id_is v) ps).
Proof.
  induction ps as [|p ps IH]; simpl; [reflexivity|].
  unfold plan_id_is at 1 3; simpl. destruct v as [n|]; [|exact IH].
  destruct (Plan.id p =? n); [reflexivity | exact IH].
Qed.

(** The response of the update route does not depend on any price. *)
Lemma update_subscription_ignores_price (r : Plan.t -> Q) (sid : Z)
  (upd : SubscriptionUpdate.t) (requester : User.t) (t1 t2 t3 : Z)
  (db : Database) :
  snd (run (update_subscription sid upd requester t1 t2 t3) (reprice r db))
  = snd (run (update_subscription sid upd requester t1 t2 t3) db)
  /\ subscriptions
       (fst (run (update_subscription sid upd requester t1 t2 t3)
               (reprice r db)))
     = subscriptions
         (fst (run (update_subscription sid upd requester t1 t2 t3) db)).
Proof.
  rewrite !run_update_subscription. cbv zeta.
  change (lookup_subscription (reprice r db) sid)
    with (lookup_subscription db sid).
  destruct (lookup_subscription db sid) as [s|]; [|split; reflexivity].
  destruct (not_authorized requester s); [split; reflexivity|].
  destruct (SubscriptionUpdate.plan_id upd) as [v|]; [|split; reflexivity].
  change (plans (reprice r db))
    with (map (fun p => Plan.set_price (r p) p) (plans db)).
  rewrite first_plan_reprice.
  destruct (first (plan_id_is v) (plans db)) as [plan|]; simpl;
    [|split; reflexivity].
  destruct (Plan.is_active plan); [|split; reflexivity].
  destruct (plus_days t2 _); split; reflexivity.
Qed.

(** C2, as stated, fails in two ways.  The route reads the clock twice,
    once for the days left and once for the sum: with the two readings one
    microsecond apart around the instant at which exactly 10 days are left,
    the stored end date is the one the claim gives for neither reading.
    And for the plan of 4000000 days the sum is beyond the calendar: the
    update raises [OverflowError] and writes nothing. *)
Lemma change_plan_two_clocks_counterexample :
  option_map Subscription.end_date
    (lookup_subscription
       (fst (run (update_subscription 1
                    (SubscriptionUpdate.mk (Some (Some 2)) None) Sample.alice
                    (20 * DAY) (20 * DAY + 1) (20 * DAY + 1)) Sample.bought))
       1)
  = Some (50 * DAY + 1)
  /\ carried_end_date (20 * DAY) 20 (30 * DAY) = 50 * DAY
  /\ carried_end_date (20 * DAY + 1) 20 (30 * DAY) = 49 * DAY + 1
  /\ run (update_subscription 1
            (SubscriptionUpdate.mk (Some (Some 4)) None) Sample.alice
            Sample.new_year_2025 Sample.new_year_2025 Sample.new_year_2025)
       Sample.bought_with_aeon
     = (Sample.bought_with_aeon,
        Raise (Unhandled "OverflowError: date value out of range")).
Proof. repeat split. Qed.

(** C2 (amended) -- ChangePlan carry-forward.  For an existing
    subscription, an authorised requester and an existing active new plan
    of duration [p] days, let [t1] and [t2] be the readings of the clock
    the route takes for the days left and for the sum, and
    [d = max 0 (floor ((end_date_old - t1) / 1 day))].  If the date
    [p + d] days after [t2] is one Python can represent, the update
    succeeds, stores the new plan and sets [end_date = t2 + (p + d)] days
    (of 86400000000 microseconds); when both readings are the same instant
    this is the end date of the specification.  The unused time is not
    lost: with [p >= 1] and a clock that does not run backwards the new end
    date is later than the old one.  No price enters the computation: the
    outcome is the same whatever the prices of the plans are. *)
Theorem change_plan_carry_forward (sid : Z) (upd : SubscriptionUpdate.t)
  (requester : User.t) (t1 t2 t3 : Z) (db : Database) (s : Subscription.t)
  (pid : Z) (plan : Plan.t) :
  lookup_subscription db sid = Some s ->
  owner_or_admin requester s ->
  SubscriptionUpdate.plan_id upd = Some (Some pid) ->
  lookup_plan db pid = Some plan ->
  Plan.is_active plan = true ->
  let p := Plan.duration_days plan in
  let d := Z.max 0 ((Subscription.end_date s - t1) / 86400000000) in
  representable t2 (p + d) ->
  let response := run (update_subscription sid upd requester t1 t2 t3) db in
  exists s',
    snd response = Ok s'
    /\ lookup_subscription (fst response) sid = Some s'
    /\ Subscription.plan_id s' = pid
    /\ Subscription.end_date s' = t2 + (p + d) * 86400000000
    /\ (t1 = t2 ->
        Subscription.end_date s'
        = carried_end_date t1 p (Subscription.end_date s))
    /\ (0 < p -> t1 <= t2 ->
        Subscription.end_date s < Subscription.end_date s')
    /\ (forall r : Plan.t -> Q,
           snd (run (update_subscription sid upd requester t1 t2 t3)
                  (reprice r db))
           = Ok s').
Proof.
  intros Hs Hauth Hpid Hplan Hact p d Hrep response.
  pose proof (update_subscription_ignores_price) as Hprice.
  subst response.
  setoid_rewrite
    (fun r => proj1 (Hprice r sid upd requester t1 t2 t3 db)).
  clear Hprice.
  rewrite run_update_subscription. cbv zeta. rewrite Hs.
  apply owner_or_admin_authorized in Hauth as ->.
  rewrite Hpid. change (first (plan_id_is (Some pid)) (plans db))
    with (lookup_plan db pid). rewrite Hplan, Hact, clamp_max.
  change (days (Subscription.end_date s - t1))
    with ((Subscription.end_date s - t1) / 86400000000).
  fold p d. rewrite (plus_days_representable _ _ Hrep). cbn [fst snd].
  eexists. split; [reflexivity|]. split.
  { apply lookup_after_assign; [assumption|].
    unfold setattrs; simpl.
    destruct (SubscriptionUpdate.status upd) as [[[]|]|]; reflexivity. }
  assert (Hend : forall s0, Subscription.end_date
            (setattrs
               {| UpdateData.plan_id := Some (Some pid);
                  UpdateData.status := SubscriptionUpdate.status upd;
                  UpdateData.end_date := Some (t2 + (p + d) * 86400000000);
                  UpdateData.cancelled_at :=
                    match SubscriptionUpdate.status upd with
                    | Some (Some CANCELLED) => Some t3
                    | _ => None
                    end |} s0) = t2 + (p + d) * 86400000000).
  { intros s0. unfold setattrs; simpl.
    destruct (SubscriptionUpdate.status upd) as [[[]|]|]; reflexivity. }
  split.
  { unfold setattrs; simpl.
    destruct (SubscriptionUpdate.status upd) as [[[]|]|]; reflexivity. }
  rewrite Hend. repeat split.
  - intros <-. reflexivity.
  - intros Hp Ht.
    exact (carry_forward_extends (Subscription.end_date s) t1 t2 p Hp Ht).
Qed.

(** Alice, 10 days before the end of her monthly plan, moves to the plan of
    20 days: the new end date is 30 days from now. *)
Lemma change_plan_carry_forward_witness :
  exists s',
    snd (run (update_subscription 1
                (SubscriptionUpdate.mk (Some (Some 2)) None) Sample.alice
                (20 * DAY) (20 * DAY) (20 * DAY)) Sample.bought)
    = Ok s'
    /\ Subscription.end_date s' = 20 * DAY + (20 + 10) * 86400000000
    /\ Subscription.end_date s'
       = carried_end_date (20 * DAY) 20 (30 * DAY)
    /\ 30 * DAY < Subscription.end_date s'.
Proof.
  destruct (change_plan_carry_forward 1
              (SubscriptionUpdate.mk (Some (Some 2)) None) Sample.alice
              (20 * DAY) (20 * DAY) (20 * DAY) Sample.bought
              (Subscription.mk 1 1 1 0 (30 * DAY) (Some ACTIVE) None)
              2 Sample.twenty eq_refl (or_introl eq_refl) eq_refl eq_refl
              eq_refl)
    as (s' & Hok & _ & _ & Hend & Hsame & Hlater & _).
  - unfold representable. simpl. lia.
  - exists s'. split; [exact Hok|]. split; [exact Hend|].
    split; [exact (Hsame eq_refl)|].
    apply Hlater; [reflexivity | discriminate].
Defined.

(** C10 -- frame.  A successful update of an existing subscription leaves
    its [id], [user_id] and [start_date] as they were; a successful Cancel
    leaves its [id], [user_id], [plan_id], [start_date] and [end_date] as
    they were.  In both cases the row written is the one returned by the
    lookup, the other rows of the table, the users, the plans and the key
    sequence are untouched. *)
Theorem update_and_cancel_frame (sid : Z) (requester : User.t) (db : Database)
  (s : Subscription.t) :
  lookup_subscription db sid = Some s ->
  (forall upd t1 t2 t3 db' s',
      run (update_subscription sid upd requester t1 t2 t3) db = (db', Ok s') ->
      Subscription.id s' = Subscription.id s
      /\ Subscription.user_id s' = Subscription.user_id s
      /\ Subscription.start_date s' = Subscription.start_date s
      /\ lookup_subscription db' sid = Some s'
      /\ db' = with_subscriptions
                 (assign_first (has_id sid) (fun _ => s') (subscriptions db))
                 db)
  /\ (forall utcnow db',
         run (cancel_subscription sid requester utcnow) db = (db', Ok tt) ->
         exists s',
           lookup_subscription db' sid = Some s'
           /\ Subscription.id s' = Subscription.id s
           /\ Subscription.user_id s' = Subscription.user_id s
           /\ Subscription.plan_id s' = Subscription.plan_id s
           /\ Subscription.start_date s' = Subscription.start_date s
           /\ Subscription.end_date s' = Subscription.end_date s
           /\ db' = with_subscriptions
                      (assign_first (has_id sid) (fun _ => s')
                         (subscriptions db)) db).
Proof.
  intros Hs. split.
  - intros upd t1 t2 t3 db' s'. rewrite run_update_subscription. cbv zeta.
    rewrite Hs.
    assert (Hframe : forall d,
               Subscription.id (setattrs d s) = Subscription.id s
               /\ Subscription.user_id (setattrs d s) = Subscription.user_id s
               /\ Subscription.start_date (setattrs d s)
                  = Subscription.start_date s).
    { intros [[[v|]|] [st|] [e|] [c|]]; unfold setattrs; simpl; auto. }
    assert (Hcommit : forall d,
               (with_subscriptions
                  (assign_first (has_id sid) (setattrs d) (subscriptions db))
                  db, Ok (setattrs d s)) = (db', Ok s') ->
               Subscription.id s' = Subscription.id s
               /\ Subscription.user_id s' = Subscription.user_id s
               /\ Subscription.start_date s' = Subscription.start_date s
               /\ lookup_subscription db' sid = Some s'
               /\ db' = with_subscriptions
                          (assign_first (has_id sid) (fun _ => s')
                             (subscriptions db)) db).
    { intros d H. inversion H; subst. destruct (Hframe d) as (Hi & Hu & Hd).
      repeat split; try assumption.
      - now apply lookup_after_assign.
      - f_equal. symmetry. now apply assign_first_found. }
    destruct (not_authorized requester s); [discriminate|].
    destruct (SubscriptionUpdate.plan_id upd) as [v|]; [|apply Hcommit].
    destruct (first (plan_id_is v) (plans db)) as [plan|]; [|discriminate].
    destruct (Plan.is_active plan); [|discriminate].
    destruct (plus_days t2 _); [apply Hcommit | discriminate].
  - intros utcnow db'. rewrite run_cancel_subscription, Hs.
    destruct (not_authorized requester s); [discriminate|].
    destruct (Subscription.status s) as [[]|] eqn:Hst; try discriminate.
    intros H. inversion H; subst. exists (cancel_row utcnow s).
    split; [now apply lookup_after_assign|].
    repeat split. f_equal. symmetry.
    now apply (assign_first_found (has_id sid) (cancel_row utcnow)).
Qed.

(** Alice cancels at time 5: everything but status and [cancelled_at] is as
    it was. *)
Lemma update_and_cancel_frame_witness :
  exists s',
    lookup_subscription Sample.cancelled 1 = Some s'
    /\ Subscription.id s' = 1
    /\ Subscription.user_id s' = 1
    /\ Subscription.plan_id s' = 1
    /\ Subscription.start_date s' = 0
    /\ Subscription.end_date s' = 30 * DAY
    /\ Sample.cancelled
       = with_subscriptions
           (assign_first (has_id 1) (fun _ => s')
              (subscriptions Sample.bought)) Sample.bought.
Proof.
  exact (proj2 (update_and_cancel_frame 1 Sample.alice Sample.bought
                  (Subscription.mk 1 1 1 0 (30 * DAY) (Some ACTIVE) None)
                  eq_refl) 5 Sample.cancelled eq_refl).
Defined.

(** C9, as stated, fails for a plan that outlasts the calendar.  Bob, an
    authenticated active user who is neither Alice nor an administrator,
    asks at the start of 2025 for the plan of 4000000 days for Alice, who
    exists and holds no Active subscription: Create does not succeed, it
    raises [OverflowError] and stores nothing. *)
Lemma create_for_other_beyond_calendar_counterexample :
  Jwt.get_current_active_user Sample.bob = Ok Sample.bob
  /\ User.id Sample.bob <> 1
  /\ User.is_admin Sample.bob = false
  /\ user_exists Sample.empty_with_aeon 1
  /\ lookup_plan Sample.empty_with_aeon 4 = Some Sample.aeon
  /\ Plan.is_active Sample.aeon = true
  /\ ~ holds_active Sample.empty_with_aeon 1
  /\ run (create_subscription (SubscriptionCreate.mk 1 4) Sample.bob
            Sample.new_year_2025) Sample.empty_with_aeon
     = (Sample.empty_with_aeon,
        Raise (Unhandled "OverflowError: date value out of range")).
Proof.
  split; [reflexivity|]. split; [discriminate|]. split; [reflexivity|].
  split; [exists Sample.alice; split; [simpl; tauto | reflexivity]|].
  split; [reflexivity|]. split; [reflexivity|].
  split; [intros (s & [] & _) | reflexivity].
Qed.

(** C9 (amended) -- Create has no ownership check.  The requester does not
    enter the outcome of [create_subscription] at all: for any
    authenticated active requester (owner, administrator or neither), an
    existing user without an Active subscription and an existing active
    plan whose end date, counted from now, is one Python can represent,
    Create succeeds for that user; Create never answers Forbidden.  The
    update and the cancel routes, in contrast, answer Forbidden (403) to a
    requester who is neither the owner of the subscription nor an
    administrator. *)
Theorem create_ignores_requester (subscription : SubscriptionCreate.t)
  (requester : User.t) (utcnow : Z) (db : Database) (plan : Plan.t) :
  Jwt.get_current_active_user requester = Ok requester ->
  user_exists db (SubscriptionCreate.user_id subscription) ->
  lookup_plan db (SubscriptionCreate.plan_id subscription) = Some plan ->
  Plan.is_active plan = true ->
  ~ holds_active db (SubscriptionCreate.user_id subscription) ->
  representable utcnow (Plan.duration_days plan) ->
  (exists db' s,
      run (create_subscription subscription requester utcnow) db = (db', Ok s)
      /\ Subscription.user_id s = SubscriptionCreate.user_id subscription
      /\ In s (subscriptions db'))
  /\ (forall other body now0 db0,
         run (create_subscription body other now0) db0
         = run (create_subscription body requester now0) db0)
  /\ (forall body now0 db0 e,
         snd (run (create_subscription body requester now0) db0) = Raise e ->
         error_kind e <> Forbidden)
  /\ (forall sid s,
         lookup_subscription db sid = Some s ->
         ~ owner_or_admin requester s ->
         (forall upd t1 t2 t3,
             run (update_subscription sid upd requester t1 t2 t3) db
             = (db, Raise (HTTPException 403
                             "Not authorized to access this resource")))
         /\ (forall now0,
                run (cancel_subscription sid requester now0) db
                = (db, Raise (HTTPException 403
                                "Not authorized to access this resource")))
         /\ error_kind (HTTPException 403
                          "Not authorized to access this resource")
            = Forbidden).
Proof.
  intros _ Huser Hplan Hact Hfree Hrep. split; [|split; [|split]].
  - rewrite (run_create_subscription_ok subscription requester utcnow db plan
               Huser Hplan Hact Hfree Hrep).
    eexists; eexists. split; [reflexivity|]. split; [reflexivity|].
    simpl. apply in_or_app. right. now left.
  - intros other body now0 db0. now rewrite !run_create_subscription.
  - intros body now0 db0 e. rewrite run_create_subscription. cbv zeta.
    destruct (first _ (users db0)); [|intros [= <-]; discriminate].
    destruct (lookup_plan db0 _) as [pl|]; [|intros [= <-]; discriminate].
    destruct (Plan.is_active pl); [|intros [= <-]; discriminate].
    destruct (first _ (subscriptions db0)); [intros [= <-]; discriminate|].
    destruct (plus_days now0 _) as [end_date|e0] eqn:E; [discriminate|].
    intros [= <-]. apply plus_days_Raise in E as [_ [msg ->]]. discriminate.
  - intros sid s Hs Hno.
    assert (Hna : not_authorized requester s = true).
    { destruct (not_authorized requester s) eqn:E; [reflexivity|].
      exfalso. now apply Hno, owner_or_admin_authorized. }
    repeat split.
    + intros upd t1 t2 t3. rewrite run_update_subscription. cbv zeta.
      now rewrite Hs, Hna.
    + intros now0. now rewrite run_cancel_subscription, Hs, Hna.
Qed.

(** Bob, who is not an administrator, buys the monthly plan for Alice. *)
Lemma create_ignores_requester_witness :
  exists db' s,
    run (create_subscription (SubscriptionCreate.mk 1 1) Sample.bob 0)
      Sample.empty = (db', Ok s)
    /\ Subscription.user_id s = 1
    /\ In s (subscriptions db').
Proof.
  apply (create_ignores_requester (SubscriptionCreate.mk 1 1) Sample.bob 0
           Sample.empty Sample.monthly).
  - reflexivity.
  - exists Sample.alice. split; [simpl; tauto | reflexivity].
  - reflexivity.
  - reflexivity.
  - intros (s & [] & _).
  - unfold representable. simpl. lia.
Defined.

(** ** SweepExpired *)

Lemma overdue_iff (utcnow : Z) (s : Subscription.t) :
  overdue utcnow s = true
  <-> Subscription.status s = Some ACTIVE /\ Subscription.end_date s < utcnow.
Proof.
  unfold overdue. now rewrite andb_true_iff, has_status_iff, Z.ltb_lt.
Qed.

Lemma overdue_mark_expired (t : Z) (s : Subscription.t) :
  overdue t (mark_expired s) = false.
Proof. reflexivity. Qed.

Lemma overdue_mono (t t' : Z) (s : Subscription.t) :
  t <= t' -> overdue t s = true -> overdue t' s = true.
Proof. rewrite !overdue_iff. intros Ht [Hs He]. split; [assumption | lia]. Qed.

Lemma sweep_db_cases (fault : Fault) (utcnow : Z) (db : Database)
  (log : list LogRecord) :
  sweep_db fault utcnow db log
  = match fault with
    | NoFault =>
        with_subscriptions (expire_overdue utcnow (subscriptions db)) db
    | _ => db
    end.
Proof. destruct fault; reflexivity. Qed.

Lemma expire_overdue_step (utcnow : Z) (table : list Subscription.t) :
  Forall2 (sweep_step utcnow) table (expire_overdue utcnow table).
Proof.
  induction table as [|s rest IH]; simpl; constructor; [|exact IH].
  unfold sweep_step. destruct (overdue utcnow s) eqn:E.
  - apply overdue_iff in E as [Hs He]. repeat split.
    + right. auto.
    + intros H. lia.
    + intros H. contradiction.
  - repeat split; auto.
Qed.

Lemma sweep_step_refl (utcnow : Z) (table : list Subscription.t) :
  Forall2 (sweep_step utcnow) table table.
Proof.
  induction table; constructor; [|assumption].
  unfold sweep_step. auto.
Qed.

(** C7 -- the sweep never transitions a subscription whose
    [end_date >= now] and never one whose status is not Active: row by row,
    the table after a run (whether or not the persistence layer fails) is
    the table before, except that rows that were Active and strictly past
    their end date may have become Expired; users, plans and the key
    sequence are untouched. *)
Theorem sweep_only_expires_overdue (fault : Fault) (utcnow : Z)
  (db : Database) (log : list LogRecord) :
  Forall2 (sweep_step utcnow) (subscriptions db)
    (subscriptions (sweep_db fault utcnow db log))
  /\ users (sweep_db fault utcnow db log) = users db
  /\ plans (sweep_db fault utcnow db log) = plans db
  /\ subscriptions_id_seq (sweep_db fault utcnow db log)
     = subscriptions_id_seq db.
Proof.
  rewrite sweep_db_cases.
  destruct fault; simpl; repeat split;
    auto using expire_overdue_step, sweep_step_refl.
Qed.

Lemma selected_after_sweep (t t' : Z) (table : list Subscription.t) :
  all (overdue t') (expire_overdue t table)
  = all (fun s => overdue t' s && negb (overdue t s)) table.
Proof.
  unfold all, expire_overdue.
  induction table as [|s rest IH]; simpl; [reflexivity|].
  destruct (overdue t s) eqn:E; simpl.
  - rewrite andb_false_r. exact IH.
  - rewrite andb_true_r. destruct (overdue t' s); [f_equal|]; exact IH.
Qed.

Lemma filter_nothing {A : Type} (p : A -> bool) (l : list A) :
  (forall x, p x = false) -> filter p l = [].
Proof.
  intros H. induction l as [|x l IH]; simpl; [reflexivity|].
  now rewrite H.
Qed.

Lemma expire_nothing (t : Z) (table : list Subscription.t) :
  all (overdue t) table = [] -> expire_overdue t table = table.
Proof.
  unfold all, expire_overdue.
  induction table as [|s rest IH]; simpl; [reflexivity|].
  destruct (overdue t s); [discriminate|]. intros H. f_equal; auto.
Qed.

Lemma expire_twice (t t' : Z) (table : list Subscription.t) :
  t <= t' ->
  expire_overdue t' (expire_overdue t table) = expire_overdue t' table.
Proof.
  intros Ht. unfold expire_overdue. rewrite map_map. apply map_ext.
  intros s. destruct (overdue t s) eqn:E.
  - rewrite (overdue_mono t t' s Ht E). reflexivity.
  - reflexivity.
Qed.

(** C5, as stated, fails for a later clock.  Alice's subscription ends at
    day 30.  A sweep at that very instant selects nothing (the end date is
    not strictly in the past); a second sweep one microsecond later selects
    the row and changes the state. *)
Lemma sweep_later_clock_counterexample :
  selected (30 * DAY) Sample.bought = []
  /\ List.length
       (selected (30 * DAY + 1) (sweep_db NoFault (30 * DAY) Sample.bought []))
     = 1%nat
  /\ sweep_db NoFault (30 * DAY + 1)
       (sweep_db NoFault (30 * DAY) Sample.bought []) []
     <> sweep_db NoFault (30 * DAY) Sample.bought [].
Proof. repeat split. discriminate. Qed.

(** C5 (amended) -- the sweep is idempotent at a fixed clock.  After a run
    at time [utcnow] that committed, a second run at the same time selects
    no row, logs a count of zero and leaves the database as it is (also if
    it fails).  A second run at a later time [later] selects exactly the
    rows that the first run did not select and that are overdue at [later],
    hence no row the first run has transitioned, and the two runs together
    give the database of a single run at [later]. *)
Theorem sweep_idempotent (utcnow : Z) (db : Database)
  (log log' : list LogRecord) (fault' : Fault) :
  let db1 := sweep_db NoFault utcnow db log in
  selected utcnow db1 = []
  /\ sweep_db fault' utcnow db1 log' = db1
  /\ sweep_log NoFault utcnow db1 log'
     = app log' [(INFO, "Checking for expired subscriptions...");
                 (INFO, "Updated 0 expired subscriptions")]
  /\ (forall s,
         In s (selected utcnow db) ->
         In (mark_expired s) (subscriptions db1)
         /\ Subscription.status (mark_expired s) = Some EXPIRED)
  /\ (forall later,
         utcnow <= later ->
         selected later db1
         = all (fun s => overdue later s && negb (overdue utcnow s))
             (subscriptions db)
         /\ sweep_db NoFault later db1 log' = sweep_db NoFault later db log).
Proof.
  cbv zeta. rewrite !sweep_db_cases.
  assert (Hnone : selected utcnow
                    (with_subscriptions
                       (expire_overdue utcnow (subscriptions db)) db) = []).
  { unfold selected. simpl. rewrite selected_after_sweep.
    apply filter_nothing. intros s. apply andb_negb_r. }
  split; [exact Hnone|]. split; [|split; [|split]].
  - destruct fault'; try reflexivity.
    unfold with_subscriptions; simpl. f_equal.
    now apply expire_nothing.
  - unfold sweep_log, check_expired_subscriptions. cbn [fst snd].
    fold (selected utcnow
            (with_subscriptions (expire_overdue utcnow (subscriptions db)) db)).
    rewrite Hnone. unfold emit. cbn [marking_records map List.length].
    rewrite app_nil_r, <- app_assoc. reflexivity.
  - intros s Hin. apply filter_In in Hin as [Hin Hov]. split; [|reflexivity].
    simpl. apply in_map_iff. exists s. now rewrite Hov.
  - intros later Hlater. split.
    + unfold selected. simpl. apply selected_after_sweep.
    + rewrite !sweep_db_cases. unfold with_subscriptions; simpl.
      now rewrite expire_twice.
Qed.

(** The sample subscription, swept twice one microsecond after its end. *)
Lemma sweep_idempotent_witness :
  selected (30 * DAY + 1) (sweep_db NoFault (30 * DAY + 1) Sample.bought [])
  = all (fun s => overdue (30 * DAY + 1) s && negb (overdue (30 * DAY + 1) s))
      (subscriptions Sample.bought)
  /\ sweep_db NoFault (30 * DAY + 1)
       (sweep_db NoFault (30 * DAY + 1) Sample.bought []) []
     = sweep_db NoFault (30 * DAY + 1) Sample.bought [].
Proof.
  apply (proj2 (proj2 (proj2 (proj2
           (sweep_idempotent (30 * DAY + 1) Sample.bought [] [] NoFault))))
           (30 * DAY + 1)).
  apply Z.le_refl.
Defined.

(** C8, as stated, fails: the sweep evaluates to [None], not to the count.
    One microsecond after the end of Alice's subscription one row is
    transitioned, yet the call does not give 1; and when the commit fails
    the call does not give 0 either.  The administrator's trigger answers
    with a fixed message. *)
Lemma sweep_returns_no_count_counterexample :
  List.length (selected (30 * DAY + 1) Sample.bought) = 1%nat
  /\ sweep_value NoFault (30 * DAY + 1) Sample.bought [] <> PyInt 1
  /\ sweep_value (CommitRaises "connection lost") (30 * DAY + 1)
       Sample.bought [] <> PyInt 0
  /\ snd (check_expired Sample.root NoFault (30 * DAY + 1) Sample.bought [])
     = Ok "Expired subscription check triggered".
Proof. repeat split; discriminate. Qed.

(** C8 (amended) -- the sweep gives its count to the log, not to its
    caller.  Every run evaluates to [None].  A run without failure commits
    the transitions and its last log record is "Updated n expired
    subscriptions", [n] being the number of rows selected.  If the query or
    the commit raises, the database is as before the run (all transitions
    are rolled back), the last log record is the error with the message of
    the exception, and the value is still [None].  The administrator's
    trigger runs the sweep and answers with a fixed message. *)
Theorem sweep_reports_through_log (fault : Fault) (utcnow : Z) (db : Database)
  (log : list LogRecord) (requester : User.t) :
  sweep_value fault utcnow db log = PyNone
  /\ match fault with
     | NoFault =>
         sweep_db fault utcnow db log
         = with_subscriptions (expire_overdue utcnow (subscriptions db)) db
         /\ last (sweep_log fault utcnow db log) (INFO, "")
            = (INFO,
               "Updated "
               ++ str (Z.of_nat (List.length (selected utcnow db)))
               ++ " expired subscriptions")
     | QueryRaises e | CommitRaises e =>
         sweep_db fault utcnow db log = db
         /\ last (sweep_log fault utcnow db log) (INFO, "")
            = (ERROR, "Error checking expired subscriptions: " ++ e)
     end
  /\ check_expired requester fault utcnow db log
     = if User.is_admin requester
       then (sweep_db fault utcnow db log, sweep_log fault utcnow db log,
             Ok "Expired subscription check triggered")
       else (db, log, Raise (HTTPException 403 "Not enough permissions")).
Proof.
  split; [destruct fault; reflexivity|]. split.
  - destruct fault; (split; [reflexivity|]);
      unfold sweep_log, check_expired_subscriptions, emit; cbn [fst snd];
      apply last_last.
  - unfold check_expired, Jwt.get_current_admin_user, sweep_db, sweep_log.
    destruct (User.is_admin requester); simpl; [|reflexivity].
    destruct (check_expired_subscriptions fault utcnow db log) as [[d l] v].
    reflexivity.
Qed.

(** ** The single-active invariant *)

Lemma active_count_app (uid : Z) (table : list Subscription.t)
  (s : Subscription.t) :
  active_count uid (app table [s])
  = (active_count uid table + if active_of uid s then 1 else 0)%nat.
Proof.
  unfold active_count. rewrite filter_app, length_app. simpl.
  now destruct (active_of uid s).
Qed.

Lemma create_keeps_single_active (body : SubscriptionCreate.t)
  (requester : User.t) (utcnow : Z) (db : Database) :
  single_active db ->
  single_active (fst (run (create_subscription body requester utcnow) db)).
Proof.
  intros Hinv. rewrite run_create_subscription. cbv zeta.
  destruct (first _ (users db)); [|exact Hinv].
  destruct (lookup_plan db _) as [plan|]; [|exact Hinv].
  destruct (Plan.is_active plan); [|exact Hinv].
  destruct (first (active_of _) (subscriptions db)) eqn:E; [exact Hinv|].
  destruct (plus_days utcnow _); [|exact Hinv].
  intros uid. simpl. rewrite active_count_app.
  destruct (active_of uid _) eqn:Ha.
  - apply active_of_iff in Ha as [Hu _]. simpl in Hu. subst uid.
    unfold active_count. rewrite (first_None_filter _ _ E). simpl. lia.
  - specialize (Hinv uid). lia.
Qed.

Lemma cancel_keeps_single_active (sid : Z) (requester : User.t) (utcnow : Z)
  (db : Database) :
  single_active db ->
  single_active (fst (run (cancel_subscription sid requester utcnow) db)).
Proof.
  intros Hinv. rewrite run_cancel_subscription.
  destruct (lookup_subscription db sid) as [s|]; [|exact Hinv].
  destruct (not_authorized requester s); [exact Hinv|].
  destruct (Subscription.status s) as [[]|]; try exact Hinv.
  intros uid. simpl. specialize (Hinv uid). unfold active_count in *.
  etransitivity; [apply count_assign_first_le | exact Hinv].
  intros x. unfold active_of, cancel_row, has_status. simpl.
  rewrite andb_false_r. discriminate.
Qed.

Lemma sweep_keeps_single_active (fault : Fault) (utcnow : Z) (db : Database)
  (log : list LogRecord) :
  single_active db -> single_active (sweep_db fault utcnow db log).
Proof.
  intros Hinv. rewrite sweep_db_cases.
  destruct fault; try exact Hinv.
  intros uid. simpl. specialize (Hinv uid). unfold active_count in *.
  etransitivity; [apply count_map_le | exact Hinv].
  intros x. destruct (overdue utcnow x); [|auto].
  unfold active_of, mark_expired, has_status. simpl.
  rewrite andb_false_r. discriminate.
Qed.



Example history_result :
  map (fun s => (Subscription.id s, Subscription.user_id s,
                 Subscription.status s, Subscription.cancelled_at s))
    (subscriptions (perform_all Sample.history Sample.empty))
  = [(1, 1, Some CANCELLED, Some 5);
     (2, 1, Some EXPIRED, None);
     (3, 2, Some CANCELLED, Some 8)].
Proof. reflexivity. Qed.


(** ** [cancelled_at] and the status *)

Lemma coupled_stamped (s : Subscription.t) : coupled s -> stamped s.
Proof. intros [_ H]. exact H. Qed.

Lemma Forall_map_keep {A : Type} (P : A -> Prop) (g : A -> A) (l : list A) :
  (forall x, P x -> P (g x)) -> Forall P l -> Forall P (map g l).
Proof.
  intros Hg. induction 1; simpl; constructor; auto.
Qed.

Section RowInvariant.
(** A property of subscription rows that holds of a freshly created row and
    that cancelling and expiring keep. *)
Variable P : Subscription.t -> Prop.
Hypothesis P_created :
  forall i u p t e, P (Subscription.mk i u p t e (Some ACTIVE) None).
Hypothesis P_cancel : forall t s, P s -> P (cancel_row t s).
Hypothesis P_expire :
  forall s, P s -> Subscription.status s = Some ACTIVE -> P (mark_expired s).

Lemma create_keeps_rows (body : SubscriptionCreate.t) (requester : User.t)
  (utcnow : Z) (db : Database) :
  Forall P (subscriptions db) ->
  Forall P (subscriptions
              (fst (run (create_subscription body requester utcnow) db))).
Proof.
  intros H. rewrite run_create_subscription. cbv zeta.
  destruct (first _ (users db)); [|exact H].
  destruct (lookup_plan db _) as [plan|]; [|exact H].
  destruct (Plan.is_active plan); [|exact H].
  destruct (first (active_of _) (subscriptions db)); [exact H|].
  destruct (plus_days utcnow _); [|exact H].
  simpl. apply Forall_app. split; [exact H|]. constructor; [|constructor].
  apply P_created.
Qed.

Lemma cancel_keeps_rows (sid : Z) (requester : User.t) (utcnow : Z)
  (db : Database) :
  Forall P (subscriptions db) ->
  Forall P (subscriptions
              (fst (run (cancel_subscription sid requester utcnow) db))).
Proof.
  intros H. rewrite run_cancel_subscription.
  destruct (lookup_subscription db sid) as [s|]; [|exact H].
  destruct (not_authorized requester s); [exact H|].
  destruct (Subscription.status s) as [[]|]; try exact H.
  simpl. apply assign_first_Forall; [apply P_cancel | exact H].
Qed.

Lemma sweep_keeps_rows (fault : Fault) (utcnow : Z) (db : Database)
  (log : list LogRecord) :
  Forall P (subscriptions db) ->
  Forall P (subscriptions (sweep_db fault utcnow db log)).
Proof.
  intros H. rewrite sweep_db_cases. destruct fault; try exact H.
  simpl. apply Forall_map_keep; [|exact H].
  intros s Hs. destruct (overdue utcnow s) eqn:E; [|exact Hs].
  apply overdue_iff in E as [Hst _]. now apply P_expire.
Qed.

(** ... and that [setattrs] keeps for the update at hand. *)
Lemma update_keeps_rows (sid : Z) (upd : SubscriptionUpdate.t)
  (requester : User.t) (t1 t2 t3 : Z) (db : Database) :
  (forall new_plan_id new_end_date s,
      P s ->
      P (setattrs
           (UpdateData.mk new_plan_id (SubscriptionUpdate.status upd)
              new_end_date
              match SubscriptionUpdate.status upd with
              | Some (Some CANCELLED) => Some t3
              | _ => None
              end) s)) ->
  Forall P (subscriptions db) ->
  Forall P (subscriptions
              (fst (run (update_subscription sid upd requester t1 t2 t3) db))).
Proof.
  intros Hset H. rewrite run_update_subscription. cbv zeta.
  destruct (lookup_subscription db sid) as [s|]; [|exact H].
  destruct (not_authorized requester s); [exact H|].
  destruct (SubscriptionUpdate.plan_id upd) as [v|].
  - destruct (first (plan_id_is v) (plans db)) as [plan|]; [|exact H].
    destruct (Plan.is_active plan); [|exact H].
    destruct (plus_days t2 _); [|exact H].
    simpl. apply assign_first_Forall; [apply Hset | exact H].
  - simpl. apply assign_first_Forall; [apply Hset | exact H].
Qed.

End RowInvariant.

Lemma setattrs_stamped (upd : SubscriptionUpdate.t) (t3 : Z)
  (new_plan_id : option (option Z)) (new_end_date : option Z)
  (s : Subscription.t) :
  stamped s ->
  stamped (setattrs
             (UpdateData.mk new_plan_id (SubscriptionUpdate.status upd)
                new_end_date
                match SubscriptionUpdate.status upd with
                | Some (Some CANCELLED) => Some t3
                | _ => None
                end) s).
Proof.
  unfold stamped, setattrs. simpl.
  destruct new_plan_id as [[v|]|], new_end_date as [e|],
    (SubscriptionUpdate.status upd) as [[[]|]|]; simpl;
    intros H; try exact H; congruence.
Qed.

Lemma setattrs_coupled (upd : SubscriptionUpdate.t) (t3 : Z)
  (new_plan_id : option (option Z)) (new_end_date : option Z)
  (s : Subscription.t) :
  match SubscriptionUpdate.status upd with
  | Some (Some CANCELLED) | None => True
  | Some _ => False
  end ->
  coupled s ->
  coupled (setattrs
             (UpdateData.mk new_plan_id (SubscriptionUpdate.status upd)
                new_end_date
                match SubscriptionUpdate.status upd with
                | Some (Some CANCELLED) => Some t3
                | _ => None
                end) s).
Proof.
  unfold coupled, setattrs. simpl.
  destruct new_plan_id as [[v|]|], new_end_date as [e|],
    (SubscriptionUpdate.status upd) as [[[]|]|]; simpl;
    intros Hok H; try exact H; try contradiction;
    split; congruence.
Qed.

Lemma perform_keeps_stamped (op : Operation) (db : Database) :
  Forall stamped (subscriptions db) ->
  Forall stamped (subscriptions (perform db op)).
Proof.
  destruct op; simpl.
  - apply create_keeps_rows. unfold stamped; simpl; discriminate.
  - apply update_keeps_rows. intros. now apply setattrs_stamped.
  - apply cancel_keeps_rows. unfold stamped; simpl; discriminate.
  - apply sweep_keeps_rows. unfold stamped; simpl; discriminate.
Qed.

Lemma perform_keeps_coupled (op : Operation) (db : Database) :
  assigns_other_status op = false ->
  Forall coupled (subscriptions db) ->
  Forall coupled (subscriptions (perform db op)).
Proof.
  destruct op; simpl; intros Hop.
  - apply create_keeps_rows. unfold coupled; simpl. split; congruence.
  - apply update_keeps_rows. intros. apply setattrs_coupled; [|assumption].
    destruct (SubscriptionUpdate.status subscription_update) as [[[]|]|];
      first [exact I | discriminate Hop].
  - apply cancel_keeps_rows. unfold coupled; simpl. split; congruence.
  - apply sweep_keeps_rows. unfold coupled; simpl. intros s [H1 H2] Hs.
    split; [|discriminate]. intros Hc. apply H1 in Hc. congruence.
Qed.

(** C6, as stated, fails for SetStatus: Alice's cancelled subscription is
    coupled, and after the update route has set its status to Active the
    row still carries the [cancelled_at] of the cancellation. *)
Lemma set_status_breaks_coupling_counterexample :
  Forall coupled (subscriptions Sample.cancelled)
  /\ lookup_subscription (perform Sample.cancelled Sample.reactivate) 1
     = Some (Subscription.mk 1 1 1 0 (30 * DAY) (Some ACTIVE) (Some 5))
  /\ ~ Forall coupled
         (subscriptions (perform Sample.cancelled Sample.reactivate)).
Proof.
  split; [|split].
  - repeat constructor; simpl; congruence.
  - reflexivity.
  - intros H. inversion H as [|s l [Hs _] _]; subst.
    simpl in Hs. discriminate Hs. discriminate.
Qed.

(** C6 (amended) -- [cancelled_at] and the status.  After every sequence of
    operations (Create, ChangePlan, SetStatus, Cancel, SweepExpired) every
    subscription whose status is Cancelled has a non-null [cancelled_at],
    provided this held before.  The converse too, so the full equivalence,
    is kept by every sequence in which no update assigns a status other
    than Cancelled. *)
Theorem cancelled_at_coupling (ops : list Operation) (db : Database) :
  (Forall stamped (subscriptions db) ->
   Forall stamped (subscriptions (perform_all ops db)))
  /\ (Forall (fun op => assigns_other_status op = false) ops ->
      Forall coupled (subscriptions db) ->
      Forall coupled (subscriptions (perform_all ops db))).
Proof.
  split.
  - revert db. induction ops as [|op ops IH]; intros db H; [exact H|].
    simpl. apply IH. now apply perform_keeps_stamped.
  - revert db. induction ops as [|op ops IH]; intros db Hops H; [exact H|].
    inversion Hops; subst. simpl. apply IH; [assumption|].
    now apply perform_keeps_coupled.
Qed.

(** The sample history keeps the coupling, and followed by the
    reactivation it still keeps its first half. *)
Lemma cancelled_at_coupling_witness :
  Forall coupled (subscriptions (perform_all Sample.history Sample.empty))
  /\ Forall stamped
       (subscriptions
          (perform_all (app Sample.history [Sample.reactivate]) Sample.empty)).
Proof.
  split.
  - apply (proj2 (cancelled_at_coupling Sample.history Sample.empty)).
    + repeat constructor.
    + constructor.
  - apply (proj1 (cancelled_at_coupling
                    (app Sample.history [Sample.reactivate]) Sample.empty)).
    constructor.
Defined.

(** * Further properties of the routes *)

(** ** The read routes *)

Lemma self_or_admin_authorized (requester : User.t) (uid : Z) :
  self_or_admin requester uid <-> not_self_or_admin requester uid = false.
Proof.
  unfold self_or_admin, not_self_or_admin.
  rewrite andb_false_iff, !negb_false_iff, Z.eqb_eq. reflexivity.
Qed.

Lemma run_get_active_subscription (uid : Z) (requester : User.t)
  (db : Database) :
  run (get_active_subscription uid requester) db
  = (db,
     match first (fun u => User.id u =? uid) (users db) with
     | None =>
         Raise (HTTPException 404 ("User with ID " ++ str uid ++ " not found"))
     | Some _ =>
         if not_self_or_admin requester uid then
           Raise (HTTPException 403 "Not authorized to access this resource")
         else
           match first (active_of uid) (subscriptions db) with
           | Some s => Ok s
           | None =>
               Raise (HTTPException 404
                        ("No active subscription found for user with ID "
                         ++ str uid))
           end
     end).
Proof.
  unfold get_active_subscription. unfold_handler.
  destruct (first _ (users db)); [|reflexivity].
  destruct (not_self_or_admin requester uid); simpl; [reflexivity|].
  fold (active_of uid).
  destruct (first (active_of uid) (subscriptions db)); reflexivity.
Qed.

Lemma run_get_subscription (sid : Z) (requester : User.t) (db : Database) :
  run (get_subscription sid requester) db
  = (db,
     match lookup_subscription db sid with
     | None =>
         Raise (HTTPException 404
                  ("Subscription with ID " ++ str sid ++ " not found"))
     | Some s =>
         if not_authorized requester s then
           Raise (HTTPException 403 "Not authorized to access this resource")
         else Ok s
     end).
Proof.
  unfold get_subscription, lookup_subscription. unfold_handler.
  destruct (first _ (subscriptions db)) as [s|]; [|reflexivity].
  destruct (not_authorized requester s); reflexivity.
Qed.

Lemma run_get_user_subscriptions (uid : Z) (status : option SubscriptionStatus)
  (requester : User.t) (db : Database) :
  run (get_user_subscriptions uid status requester) db
  = (db,
     match first (fun u => User.id u =? uid) (users db) with
     | None => Raise (status_attribute_error status "HTTP_404_NOT_FOUND")
     | Some _ =>
         if not_self_or_admin requester uid then
           Raise (status_attribute_error status "HTTP_403_FORBIDDEN")
         else
           Ok (all (fun s => (Subscription.user_id s =? uid)
                             && status_criterion status s)
                 (subscriptions db))
     end).
Proof.
  unfold get_user_subscriptions. unfold_handler.
  destruct (first _ (users db)); [|reflexivity].
  destruct (not_self_or_admin requester uid); reflexivity.
Qed.

(** In a list with at most one element satisfying [q], two elements that
    satisfy [q] are the same. *)
Lemma count_le_1_unique {A : Type} (q : A -> bool) (l : list A) (a b : A) :
  (List.length (filter q l) <= 1)%nat ->
  In a l -> q a = true -> In b l -> q b = true -> a = b.
Proof.
  intros Hlen Ha Hqa Hb Hqb.
  assert (Ia : In a (filter q l)) by (apply filter_In; auto).
  assert (Ib : In b (filter q l)) by (apply filter_In; auto).
  destruct (filter q l) as [|x [|y rest]]; simpl in *.
  - contradiction.
  - destruct Ia as [<-|[]], Ib as [<-|[]]. reflexivity.
  - lia.
Qed.

Lemma get_active_subscription_outcome_aux (uid : Z) (requester : User.t)
  (db : Database) :
  user_exists db uid ->
  self_or_admin requester uid ->
  (forall s,
      first (active_of uid) (subscriptions db) = Some s ->
      run (get_active_subscription uid requester) db = (db, Ok s))
  /\ (~ holds_active db uid ->
      run (get_active_subscription uid requester) db
      = (db, Raise (HTTPException 404
                      ("No active subscription found for user with ID "
                       ++ str uid)))).
Proof.
  intros Huser Hauth. rewrite run_get_active_subscription.
  apply user_exists_first in Huser as [u ->].
  apply self_or_admin_authorized in Hauth as ->.
  split.
  - now intros s ->.
  - intros Hfree.
    destruct (first (active_of uid) (subscriptions db)) as [s|] eqn:E;
      [|reflexivity].
    exfalso. apply Hfree, holds_active_first. now exists s.
Qed.

(** X1 -- LookupActive.  For an existing user and a requester who is that
    user or an administrator, in a database with the single-active
    invariant: if the user holds an Active subscription the route returns
    it, and it is the only Active row of that user; otherwise the route
    answers 404 "No active subscription found ...". *)
Theorem get_active_subscription_outcome (uid : Z) (requester : User.t)
  (db : Database) :
  user_exists db uid ->
  self_or_admin requester uid ->
  single_active db ->
  (holds_active db uid ->
   exists s,
     run (get_active_subscription uid requester) db = (db, Ok s)
     /\ In s (subscriptions db)
     /\ Subscription.user_id s = uid
     /\ Subscription.status s = Some ACTIVE
     /\ (forall s',
            In s' (subscriptions db) ->
            Subscription.user_id s' = uid ->
            Subscription.status s' = Some ACTIVE -> s' = s))
  /\ (~ holds_active db uid ->
      run (get_active_subscription uid requester) db
      = (db, Raise (HTTPException 404
                      ("No active subscription found for user with ID "
                       ++ str uid)))).
Proof.
  intros Huser Hauth Hinv. rewrite run_get_active_subscription.
  apply user_exists_first in Huser as [u ->].
  apply self_or_admin_authorized in Hauth as ->.
  pose proof (holds_active_first db uid) as Ha.
  destruct (first (active_of uid) (subscriptions db)) as [s|] eqn:E.
  - split.
    + intros _. exists s. apply first_In in E as [Hin Hact]. 
      apply active_of_iff in Hact as Hact'. destruct Hact' as [Hu Hs].
      repeat split; try assumption.
      intros s' Hin' Hu' Hs'.
      apply (count_le_1_unique (active_of uid) (subscriptions db));
        try assumption; [apply (Hinv uid) | now apply active_of_iff].
    + intros Hno. exfalso. apply Hno, Ha. now exists s.
  - split; [|reflexivity].
    intros Hheld. apply Ha in Hheld as [s [=]].
Qed.

Lemma single_active_bought : single_active Sample.bought.
Proof.
  intros uid. unfold active_count. simpl.
  destruct (active_of uid _); simpl; lia.
Qed.

(** The administrator looks up Alice's active subscription. *)
Lemma get_active_subscription_outcome_witness :
  exists s,
    run (get_active_subscription 1 Sample.root) Sample.bought
    = (Sample.bought, Ok s)
    /\ In s (subscriptions Sample.bought)
    /\ Subscription.user_id s = 1
    /\ Subscription.status s = Some ACTIVE
    /\ (forall s',
           In s' (subscriptions Sample.bought) ->
           Subscription.user_id s' = 1 ->
           Subscription.status s' = Some ACTIVE -> s' = s).
Proof.
  apply (get_active_subscription_outcome 1 Sample.root Sample.bought).
  - exists Sample.alice. split; [simpl; tauto | reflexivity].
  - right. reflexivity.
  - exact single_active_bought.
  - exists (Subscription.mk 1 1 1 0 (30 * DAY) (Some ACTIVE) None).
    repeat split. simpl. tauto.
Defined.

Lemma first_app_last {A : Type} (p : A -> bool) (l : list A) (x : A) :
  first p l = None -> p x = true -> first p (app l [x]) = Some x.
Proof.
  induction l as [|y l IH]; simpl; intros H Hx.
  - now rewrite Hx.
  - destruct (p y); [discriminate | auto].
Qed.

Lemma first_app_keep {A : Type} (p : A -> bool) (l l' : list A) (y : A) :
  first p l = Some y -> first p (app l l') = Some y.
Proof.
  induction l as [|z l IH]; simpl; intros H; [discriminate|].
  destruct (p z); [assumption | auto].
Qed.

(** What a Create that returned tells about the database it ran on. *)
Lemma run_create_subscription_inv (body : SubscriptionCreate.t)
  (requester : User.t) (utcnow : Z) (db db' : Database) (s : Subscription.t) :
  let uid := SubscriptionCreate.user_id body in
  let pid := SubscriptionCreate.plan_id body in
  run (create_subscription body requester utcnow) db = (db', Ok s) ->
  user_exists db uid
  /\ first (active_of uid) (subscriptions db) = None
  /\ (exists plan,
         lookup_plan db pid = Some plan
         /\ Plan.is_active plan = true
         /\ representable utcnow (Plan.duration_days plan)
         /\ s = Subscription.mk (subscriptions_id_seq db) uid pid utcnow
                  (utcnow + Plan.duration_days plan * 86400000000)
                  (Some ACTIVE) None)
  /\ db' = mkDatabase (users db) (plans db) (app (subscriptions db) [s])
             (subscriptions_id_seq db + 1).
Proof.
  intros uid pid. rewrite run_create_subscription. fold uid pid.
  destruct (first _ (users db)) as [u|] eqn:Eu; [|discriminate].
  destruct (lookup_plan db pid) as [plan|]; [|discriminate].
  destruct (Plan.is_active plan) eqn:Ea; [|discriminate].
  destruct (first (active_of uid) (subscriptions db)); [discriminate|].
  destruct (plus_days utcnow _) as [e|] eqn:Ep; [|discriminate].
  apply plus_days_Ok in Ep as [Hrep ->]. cbv zeta. intros [= <- <-].
  split; [apply user_exists_first; now exists u|].
  split; [reflexivity|]. split; [|reflexivity].
  exists plan. auto.
Qed.

(** X2 -- Create, then LookupActive.  When Create has returned a
    subscription for a user, the active-subscription route, asked by that
    user or by an administrator on the resulting database, returns exactly
    that subscription. *)
Theorem create_then_get_active (body : SubscriptionCreate.t)
  (requester reader : User.t) (utcnow : Z) (db db' : Database)
  (s : Subscription.t) :
  run (create_subscription body requester utcnow) db = (db', Ok s) ->
  self_or_admin reader (SubscriptionCreate.user_id body) ->
  run (get_active_subscription (SubscriptionCreate.user_id body) reader) db'
  = (db', Ok s).
Proof.
  intros Hrun Hreader.
  apply run_create_subscription_inv in Hrun
    as (Huser & Hnone & (plan & _ & _ & _ & Hs) & ->).
  rewrite run_get_active_subscription. cbn [users subscriptions].
  apply user_exists_first in Huser as [u ->].
  apply self_or_admin_authorized in Hreader as ->.
  rewrite (first_app_last _ _ s Hnone); [reflexivity|].
  rewrite Hs. apply active_of_iff. split; reflexivity.
Qed.

(** Bob buys the monthly plan; the administrator then looks it up. *)
Lemma create_then_get_active_witness :
  run (get_active_subscription 2 Sample.root)
    (fst (run (create_subscription (SubscriptionCreate.mk 2 1) Sample.bob 7)
            Sample.bought))
  = (fst (run (create_subscription (SubscriptionCreate.mk 2 1) Sample.bob 7)
            Sample.bought),
     Ok (Subscription.mk 2 2 1 7 (7 + 30 * DAY) (Some ACTIVE) None)).
Proof.
  exact (create_then_get_active (SubscriptionCreate.mk 2 1) Sample.bob
           Sample.root 7 Sample.bought _ _ eq_refl (or_intror eq_refl)).
Defined.

(** X5 -- the read routes hand a subscription only to its owner or to an
    administrator: whatever [get_subscription], [get_active_subscription]
    or [get_user_subscriptions] returns to a requester belongs to that
    requester, unless the requester is an administrator. *)
Theorem reads_only_for_owner_or_admin (requester : User.t) (db : Database) :
  (forall sid s,
      snd (run (get_subscription sid requester) db) = Ok s ->
      owner_or_admin requester s /\ lookup_subscription db sid = Some s)
  /\ (forall uid s,
         snd (run (get_active_subscription uid requester) db) = Ok s ->
         owner_or_admin requester s /\ Subscription.user_id s = uid)
  /\ (forall uid status rows,
         snd (run (get_user_subscriptions uid status requester) db) = Ok rows ->
         Forall (owner_or_admin requester) rows).
Proof.
  split; [|split].
  - intros sid s. rewrite run_get_subscription. cbn [snd].
    destruct (lookup_subscription db sid) as [s0|]; [|discriminate].
    destruct (not_authorized requester s0) eqn:E; [discriminate|].
    intros [= <-]. split; [|reflexivity]. now apply owner_or_admin_authorized.
  - intros uid s. rewrite run_get_active_subscription. cbn [snd].
    destruct (first _ (users db)); [|discriminate].
    destruct (not_self_or_admin requester uid) eqn:E; [discriminate|].
    destruct (first (active_of uid) (subscriptions db)) as [s0|] eqn:Es;
      [|discriminate].
    intros [= <-]. apply first_In in Es as [_ Es].
    apply active_of_iff in Es as [Hu _]. split; [|assumption].
    apply self_or_admin_authorized in E. unfold owner_or_admin.
    now rewrite Hu.
  - intros uid status rows. rewrite run_get_user_subscriptions. cbn [snd].
    destruct (first _ (users db)); [|discriminate].
    destruct (not_self_or_admin requester uid) eqn:E; [discriminate|].
    intros [= <-]. apply Forall_forall. intros s Hin.
    apply filter_In in Hin as [_ Hs]. apply andb_true_iff in Hs as [Hu _].
    apply Z.eqb_eq in Hu. apply self_or_admin_authorized in E.
    unfold owner_or_admin. now rewrite Hu.
Qed.

(** Alice reads her own subscription. *)
Lemma reads_only_for_owner_or_admin_witness :
  owner_or_admin Sample.alice
    (Subscription.mk 1 1 1 0 (30 * DAY) (Some ACTIVE) None)
  /\ lookup_subscription Sample.bought 1
     = Some (Subscription.mk 1 1 1 0 (30 * DAY) (Some ACTIVE) None).
Proof.
  exact (proj1 (reads_only_for_owner_or_admin Sample.alice Sample.bought)
           1 _ eq_refl).
Defined.

(** X6 -- [get_user_subscriptions].  For an existing user and a requester
    who is that user or an administrator, the route returns, in table
    order, exactly the subscriptions of that user that have the requested
    status (all of them when no status is given).  On its two error paths
    the route does not answer 404 or 403: its parameter [status] hides the
    module of status codes, and the request ends in an unhandled
    [AttributeError]. *)
Theorem get_user_subscriptions_outcome (uid : Z)
  (status : option SubscriptionStatus) (requester : User.t) (db : Database) :
  (user_exists db uid -> self_or_admin requester uid ->
   exists rows,
     run (get_user_subscriptions uid status requester) db = (db, Ok rows)
     /\ rows = filter (fun s => (Subscription.user_id s =? uid)
                                && status_criterion status s)
                 (subscriptions db)
     /\ (forall s,
            In s rows
            <-> In s (subscriptions db)
                /\ Subscription.user_id s = uid
                /\ (forall st, status = Some st ->
                               Subscription.status s = Some st)))
  /\ (~ user_exists db uid \/ ~ self_or_admin requester uid ->
      exists msg,
        run (get_user_subscriptions uid status requester) db
        = (db, Raise (Unhandled msg))
        /\ error_kind (Unhandled msg) = InternalError).
Proof.
  rewrite run_get_user_subscriptions.
  pose proof (user_exists_first db uid) as Hu.
  pose proof (self_or_admin_authorized requester uid) as Ha.
  split.
  - intros Huser Hauth. apply Hu in Huser as [u ->]. apply Ha in Hauth as ->.
    eexists. split; [reflexivity|]. split; [reflexivity|].
    intros s. unfold all. rewrite filter_In, andb_true_iff, Z.eqb_eq.
    unfold status_criterion. destruct status as [st|].
    + rewrite has_status_iff. split.
      * intros (Hin & Hid & Hst). repeat split; try assumption.
        now intros st' [= <-].
      * intros (Hin & Hid & Hst). auto.
    + split.
      * intros (Hin & Hid & _). repeat split; try assumption. discriminate.
      * intros (Hin & Hid & _). auto.
  - intros Hbad. destruct (first _ (users db)) as [u|] eqn:E.
    + destruct (not_self_or_admin requester uid) eqn:En.
      * eexists. split; reflexivity.
      * exfalso. destruct Hbad as [Hbad | Hbad].
        -- apply Hbad, Hu. now exists u.
        -- now apply Hbad, Ha.
    + eexists. split; reflexivity.
Qed.

(** Bob asks for Alice's subscriptions. *)
Lemma get_user_subscriptions_outcome_witness :
  exists msg,
    run (get_user_subscriptions 1 None Sample.bob) Sample.bought
    = (Sample.bought, Raise (Unhandled msg))
    /\ error_kind (Unhandled msg) = InternalError.
Proof.
  apply (proj2 (get_user_subscriptions_outcome 1 None Sample.bob
                  Sample.bought)).
  right. intros [H | H]; discriminate H.
Defined.

(** ** How Cancel and the sweep compose with Create and LookupActive *)

Lemma count_assign_first_drop {A : Type} (p q : A -> bool) (g : A -> A)
  (l : list A) (x : A) :
  first p l = Some x -> q x = true -> q (g x) = false ->
  (List.length (filter q (assign_first p g l)) + 1
   = List.length (filter q l))%nat.
Proof.
  induction l as [|y l IH]; simpl; intros H Hx Hg; [discriminate|].
  destruct (p y).
  - injection H as ->. simpl. rewrite Hx, Hg. simpl. lia.
  - simpl. destruct (q y); simpl; rewrite <- (IH H Hx Hg); lia.
Qed.

Lemma no_active_rows (db : Database) (uid : Z) :
  active_count uid (subscriptions db) = 0%nat -> ~ holds_active db uid.
Proof.
  unfold active_count. intros H (s & Hin & Hu & Hs).
  assert (Hf : In s (filter (active_of uid) (subscriptions db))).
  { apply filter_In. split; [assumption|]. now apply active_of_iff. }
  destruct (filter (active_of uid) (subscriptions db)); [contradiction|].
  discriminate H.
Qed.

(** X3 -- Cancel frees the user.  In a database with the single-active
    invariant, after the successful cancellation of a user's Active
    subscription that user holds no Active subscription: LookupActive
    answers 404 "No active subscription found ...", and a Create for that
    user with an existing active plan, whose end date Python can represent,
    succeeds. *)
Theorem cancel_frees_user (sid : Z) (requester : User.t) (utcnow : Z)
  (db : Database) (s : Subscription.t) :
  single_active db ->
  lookup_subscription db sid = Some s ->
  owner_or_admin requester s ->
  Subscription.status s = Some ACTIVE ->
  user_exists db (Subscription.user_id s) ->
  let uid := Subscription.user_id s in
  let db' := fst (run (cancel_subscription sid requester utcnow) db) in
  snd (run (cancel_subscription sid requester utcnow) db) = Ok tt
  /\ ~ holds_active db' uid
  /\ (forall reader,
         self_or_admin reader uid ->
         run (get_active_subscription uid reader) db'
         = (db', Raise (HTTPException 404
                          ("No active subscription found for user with ID "
                           ++ str uid))))
  /\ (forall body buyer now plan,
         SubscriptionCreate.user_id body = uid ->
         lookup_plan db (SubscriptionCreate.plan_id body) = Some plan ->
         Plan.is_active plan = true ->
         representable now (Plan.duration_days plan) ->
         exists s2 db2,
           run (create_subscription body buyer now) db' = (db2, Ok s2)
           /\ Subscription.user_id s2 = uid
           /\ Subscription.status s2 = Some ACTIVE).
Proof.
  intros Hinv Hs Hauth Hact Huser uid db'. subst db'.
  rewrite run_cancel_subscription, Hs.
  apply owner_or_admin_authorized in Hauth as ->. rewrite Hact. cbn [fst snd].
  set (db' := with_subscriptions _ db).
  assert (Hfree : ~ holds_active db' uid).
  { apply no_active_rows. unfold db', active_count. simpl.
    pose proof (count_assign_first_drop (has_id sid) (active_of uid)
                  (cancel_row utcnow) (subscriptions db) s Hs) as Hdrop.
    specialize (Hinv uid). unfold active_count in Hinv.
    assert (active_of uid s = true) by (apply active_of_iff; auto).
    assert (active_of uid (cancel_row utcnow s) = false).
    { unfold active_of, has_status; simpl. apply andb_false_r. }
    specialize (Hdrop ltac:(assumption) ltac:(assumption)). lia. }
  assert (Huser' : user_exists db' uid) by exact Huser.
  split; [reflexivity|]. split; [exact Hfree|]. split.
  - intros reader Hreader.
    now apply (proj2 (get_active_subscription_outcome_aux uid reader db'
                        Huser' Hreader)).
  - intros body buyer now plan Hbody Hplan Hpact Hrep.
    rewrite <- Hbody in Hfree, Huser'.
    rewrite (run_create_subscription_ok body buyer now db' plan
               Huser' Hplan Hpact Hfree Hrep).
    eexists; eexists. split; [reflexivity|]. split; [exact Hbody|reflexivity].
Qed.

(** Alice cancels at time 5 and buys the plan of 20 days at time 6. *)
Lemma cancel_frees_user_witness :
  exists s2 db2,
    run (create_subscription (SubscriptionCreate.mk 1 2) Sample.alice 6)
      (fst (run (cancel_subscription 1 Sample.alice 5) Sample.bought))
    = (db2, Ok s2)
    /\ Subscription.user_id s2 = 1
    /\ Subscription.status s2 = Some ACTIVE.
Proof.
  refine (proj2 (proj2 (proj2
    (cancel_frees_user 1 Sample.alice 5 Sample.bought
       (Subscription.mk 1 1 1 0 (30 * DAY) (Some ACTIVE) None)
       single_active_bought eq_refl (or_introl eq_refl) eq_refl _)))
    (SubscriptionCreate.mk 1 2) Sample.alice 6 Sample.twenty
    eq_refl eq_refl eq_refl _).
  - exists Sample.alice. split; [simpl; tauto | reflexivity].
  - unfold representable. simpl. lia.
Defined.

Lemma expire_overdue_postcondition (utcnow : Z) (table : list Subscription.t) :
  Forall (fun s => Subscription.status s = Some ACTIVE ->
                   utcnow <= Subscription.end_date s)
    (expire_overdue utcnow table).
Proof.
  unfold expire_overdue. apply Forall_forall. intros s Hin.
  apply in_map_iff in Hin as (x & <- & _).
  destruct (overdue utcnow x) eqn:E; [discriminate|].
  intros Hs. unfold overdue in E. apply andb_false_iff in E as [E | E].
  - apply has_status_iff in Hs. congruence.
  - apply Z.ltb_ge in E. exact E.
Qed.

(** X4 -- what a sweep leaves behind.  After a sweep at time [utcnow] that
    committed, no subscription is both Active and past its end date; in
    particular LookupActive never returns a subscription that ended before
    the sweep.  And a user all of whose Active subscriptions were past
    their end date holds none afterwards, so that a Create for that user
    with an existing active plan, whose end date Python can represent,
    succeeds. *)
Theorem sweep_leaves_no_overdue_active (utcnow : Z) (db : Database)
  (log : list LogRecord) :
  let db' := sweep_db NoFault utcnow db log in
  Forall (fun s => Subscription.status s = Some ACTIVE ->
                   utcnow <= Subscription.end_date s) (subscriptions db')
  /\ (forall uid reader s,
         snd (run (get_active_subscription uid reader) db') = Ok s ->
         utcnow <= Subscription.end_date s)
  /\ (forall body buyer now plan,
         let uid := SubscriptionCreate.user_id body in
         (forall s, In s (subscriptions db) ->
                    Subscription.user_id s = uid ->
                    Subscription.status s = Some ACTIVE ->
                    Subscription.end_date s < utcnow) ->
         user_exists db uid ->
         lookup_plan db (SubscriptionCreate.plan_id body) = Some plan ->
         Plan.is_active plan = true ->
         representable now (Plan.duration_days plan) ->
         exists s2 db2,
           run (create_subscription body buyer now) db' = (db2, Ok s2)
           /\ Subscription.status s2 = Some ACTIVE).
Proof.
  cbv zeta. rewrite sweep_db_cases.
  set (db' := with_subscriptions _ db).
  assert (Hpost : Forall (fun s => Subscription.status s = Some ACTIVE ->
                                   utcnow <= Subscription.end_date s)
                    (subscriptions db'))
    by apply expire_overdue_postcondition.
  split; [exact Hpost|]. split.
  - intros uid reader s. rewrite run_get_active_subscription. cbn [snd].
    destruct (first _ (users db')); [|discriminate].
    destruct (not_self_or_admin reader uid); [discriminate|].
    destruct (first (active_of uid) (subscriptions db')) as [s0|] eqn:E;
      [|discriminate].
    intros [= <-]. apply first_In in E as [Hin Ha].
    apply active_of_iff in Ha as [_ Hs].
    eapply Forall_forall in Hpost; [|exact Hin]. auto.
  - intros body buyer now plan Hall Huser Hplan Hact Hrep.
    assert (Hfree : ~ holds_active db' (SubscriptionCreate.user_id body)).
    { intros (s & Hin & Hu & Hs). unfold db' in Hin. simpl in Hin.
      apply in_map_iff in Hin as (x & Hx & Hin).
      destruct (overdue utcnow x) eqn:E.
      - subst s. discriminate Hs.
      - subst s. specialize (Hall x Hin Hu Hs).
        assert (overdue utcnow x = true) by (apply overdue_iff; auto).
        congruence. }
    rewrite (run_create_subscription_ok body buyer now db' plan
               Huser Hplan Hact Hfree Hrep).
    eexists; eexists. split; reflexivity.
Qed.

(** Alice's monthly plan has run out; after the sweep she buys again. *)
Lemma sweep_leaves_no_overdue_active_witness :
  exists s2 db2,
    run (create_subscription (SubscriptionCreate.mk 1 2) Sample.alice
           (31 * DAY))
      (sweep_db NoFault (31 * DAY) Sample.bought []) = (db2, Ok s2)
    /\ Subscription.status s2 = Some ACTIVE.
Proof.
  refine (proj2 (proj2
    (sweep_leaves_no_overdue_active (31 * DAY) Sample.bought []))
    (SubscriptionCreate.mk 1 2) Sample.alice (31 * DAY) Sample.twenty
    _ _ eq_refl eq_refl _).
  - intros s [<- | []] _ _. reflexivity.
  - exists Sample.alice. split; [simpl; tauto | reflexivity].
  - unfold representable. simpl. lia.
Defined.

(** ** Primary keys *)

Lemma setattrs_id (d : UpdateData.t) (s : Subscription.t) :
  Subscription.id (setattrs d s) = Subscription.id s.
Proof.
  destruct d as [[[v|]|] [st|] [e|] [c|]]; reflexivity.
Qed.

Lemma map_assign_first {A B : Type} (h : A -> B) (p : A -> bool) (g : A -> A)
  (l : list A) :
  (forall x, h (g x) = h x) -> map h (assign_first p g l) = map h l.
Proof.
  intros Hg. induction l as [|y l IH]; simpl; [reflexivity|].
  destruct (p y); simpl; [now rewrite Hg | now rewrite IH].
Qed.

Lemma keys_fresh_assign (db : Database) (p : Subscription.t -> bool)
  (g : Subscription.t -> Subscription.t) :
  (forall x, Subscription.id (g x) = Subscription.id x) ->
  keys_fresh db ->
  keys_fresh (with_subscriptions (assign_first p g (subscriptions db)) db).
Proof.
  intros Hg [Hnd Hlt]. split; simpl.
  - now rewrite map_assign_first.
  - apply assign_first_Forall; [|exact Hlt]. intros x. now rewrite Hg.
Qed.

Lemma perform_keeps_keys_fresh (op : Operation) (db : Database) :
  keys_fresh db -> keys_fresh (perform db op).
Proof.
  intros Hk. destruct op as [b u t | sid upd u t1 t2 t3 | sid u t | f t];
    simpl.
  - rewrite run_create_subscription. cbv zeta.
    destruct (first _ (users db)); [|exact Hk].
    destruct (lookup_plan db _) as [plan|]; [|exact Hk].
    destruct (Plan.is_active plan); [|exact Hk].
    destruct (first (active_of _) (subscriptions db)); [exact Hk|].
    destruct (plus_days t _); [|exact Hk].
    destruct Hk as [Hnd Hlt]. split; simpl.
    + rewrite map_app. simpl. apply NoDup_app; [exact Hnd | | ].
      * constructor; [intros [] | constructor].
      * intros k Hin [<- | []]. apply in_map_iff in Hin as (x & Hx & Hin).
        eapply Forall_forall in Hlt; [|exact Hin]. simpl in Hlt. lia.
    + apply Forall_app. split.
      * eapply Forall_impl; [|exact Hlt]. simpl. intros; lia.
      * constructor; [simpl; lia | constructor].
  - rewrite run_update_subscription. cbv zeta.
    destruct (lookup_subscription db sid) as [s|]; [|exact Hk].
    destruct (not_authorized u s); [exact Hk|].
    destruct (SubscriptionUpdate.plan_id upd) as [v|].
    + destruct (first (plan_id_is v) (plans db)) as [plan|]; [|exact Hk].
      destruct (Plan.is_active plan); [|exact Hk].
      destruct (plus_days t2 _); [|exact Hk].
      apply keys_fresh_assign; [apply setattrs_id | exact Hk].
    + apply keys_fresh_assign; [apply setattrs_id | exact Hk].
  - rewrite run_cancel_subscription.
    destruct (lookup_subscription db sid) as [s|]; [|exact Hk].
    destruct (not_authorized u s); [exact Hk|].
    destruct (Subscription.status s) as [[]|]; try exact Hk.
    apply keys_fresh_assign; [reflexivity | exact Hk].
  - fold (sweep_db f t db []). rewrite sweep_db_cases.
    destruct f; try exact Hk. destruct Hk as [Hnd Hlt]. split; simpl.
    + unfold expire_overdue. rewrite map_map.
      erewrite map_ext; [exact Hnd|].
      intros x. now destruct (overdue t x).
    + unfold expire_overdue. apply Forall_map_keep; [|exact Hlt].
      intros x Hx. now destruct (overdue t x).
Qed.

(** X7 -- primary keys.  If the keys of the subscriptions are pairwise
    distinct and below the next value of the key sequence, they still are
    after any sequence of Create, update, Cancel and SweepExpired calls,
    and the sequence never goes back. *)
Theorem keys_stay_fresh (ops : list Operation) (db : Database) :
  keys_fresh db ->
  keys_fresh (perform_all ops db)
  /\ subscriptions_id_seq db <= subscriptions_id_seq (perform_all ops db).
Proof.
  revert db. induction ops as [|op ops IH]; intros db Hk; simpl.
  - split; [exact Hk | lia].
  - destruct (IH (perform db op) (perform_keeps_keys_fresh op db Hk))
      as [Hk' Hseq].
    split; [exact Hk'|]. etransitivity; [|exact Hseq].
    destruct op as [b u t | sid upd u t1 t2 t3 | sid u t | f t]; simpl.
    + rewrite run_create_subscription. cbv zeta.
      destruct (first _ (users db)); [|simpl; lia].
      destruct (lookup_plan db _) as [plan|]; [|simpl; lia].
      destruct (Plan.is_active plan); [|simpl; lia].
      destruct (first (active_of _) (subscriptions db)); [simpl; lia|].
      destruct (plus_days t _); simpl; lia.
    + rewrite run_update_subscription. cbv zeta.
      destruct (lookup_subscription db sid) as [s|]; [|simpl; lia].
      destruct (not_authorized u s); [simpl; lia|].
      destruct (SubscriptionUpdate.plan_id upd) as [v|]; [|simpl; lia].
      destruct (first (plan_id_is v) (plans db)) as [plan|]; [|simpl; lia].
      destruct (Plan.is_active plan); [|simpl; lia].
      destruct (plus_days t2 _); simpl; lia.
    + rewrite run_cancel_subscription.
      destruct (lookup_subscription db sid) as [s|]; [|simpl; lia].
      destruct (not_authorized u s); [simpl; lia|].
      destruct (Subscription.status s) as [[]|]; simpl; lia.
    + destruct f; simpl; lia.
Qed.

Lemma keys_fresh_empty : keys_fresh Sample.empty.
Proof. split; constructor. Qed.

(** The sample history keeps the keys 1, 2, 3 distinct. *)
Lemma keys_stay_fresh_witness :
  keys_fresh (perform_all Sample.history Sample.empty)
  /\ 1 <= subscriptions_id_seq (perform_all Sample.history Sample.empty).
Proof.
  exact (keys_stay_fresh Sample.history Sample.empty keys_fresh_empty).
Defined.

(** X8 -- Create, then read by key.  With keys below the sequence, the
    subscription a Create has returned is the one [get_subscription] (asked
    by its owner or an administrator) and [get_subscription_details] find
    under its key afterwards, and every subscription that could be looked
    up before is looked up unchanged, under another key. *)
Theorem create_then_get_subscription (body : SubscriptionCreate.t)
  (requester reader : User.t) (utcnow : Z) (db db' : Database)
  (s : Subscription.t) :
  keys_fresh db ->
  run (create_subscription body requester utcnow) db = (db', Ok s) ->
  self_or_admin reader (SubscriptionCreate.user_id body) ->
  run (get_subscription (Subscription.id s) reader) db' = (db', Ok s)
  /\ get_subscription_details (Subscription.id s) db' = Some s
  /\ (forall sid s0,
         lookup_subscription db sid = Some s0 ->
         lookup_subscription db' sid = Some s0
         /\ sid <> Subscription.id s).
Proof.
  intros [_ Hlt] Hrun Hreader.
  apply run_create_subscription_inv in Hrun
    as (_ & _ & (plan & _ & _ & _ & Hs) & ->).
  assert (Hid : Subscription.id s = subscriptions_id_seq db)
    by (now rewrite Hs).
  assert (Hnone : first (has_id (Subscription.id s)) (subscriptions db)
                  = None).
  { destruct (first _ (subscriptions db)) as [x|] eqn:E; [|reflexivity].
    apply first_In in E as [Hin Hx]. apply Z.eqb_eq in Hx.
    eapply Forall_forall in Hlt; [|exact Hin]. simpl in Hlt. lia. }
  assert (Hnew : first (has_id (Subscription.id s))
                   (app (subscriptions db) [s]) = Some s).
  { apply first_app_last; [exact Hnone | apply Z.eqb_refl]. }
  split; [|split; [exact Hnew|]].
  - rewrite run_get_subscription. unfold lookup_subscription.
    cbn [subscriptions]. fold (has_id (Subscription.id s)). rewrite Hnew.
    assert (not_authorized reader s = false) as ->.
    { apply owner_or_admin_authorized. rewrite Hs. exact Hreader. }
    reflexivity.
  - intros sid s0 H0. unfold lookup_subscription in *. simpl. split.
    + now apply first_app_keep.
    + apply first_In in H0 as [Hin Hx]. apply Z.eqb_eq in Hx.
      eapply Forall_forall in Hlt; [|exact Hin]. simpl in Hlt. lia.
Qed.

(** Bob buys the monthly plan and reads it back under its key, 2. *)
Lemma create_then_get_subscription_witness :
  run (get_subscription 2 Sample.bob)
    (fst (run (create_subscription (SubscriptionCreate.mk 2 1) Sample.bob 7)
            Sample.bought))
  = (fst (run (create_subscription (SubscriptionCreate.mk 2 1) Sample.bob 7)
            Sample.bought),
     Ok (Subscription.mk 2 2 1 7 (7 + 30 * DAY) (Some ACTIVE) None)).
Proof.
  refine (proj1 (create_then_get_subscription (SubscriptionCreate.mk 2 1)
                   Sample.bob Sample.bob 7 Sample.bought _ _ _ eq_refl
                   (or_introl eq_refl))).
  split; simpl.
  - constructor; [intros [] | constructor].
  - constructor; [reflexivity | constructor].
Defined.

(** ** The update route and the single-active invariant *)

Lemma update_keeps_single_active (sid : Z) (upd : SubscriptionUpdate.t)
  (requester : User.t) (t1 t2 t3 : Z) (db : Database) :
  assigns_active (Update sid upd requester t1 t2 t3) = false ->
  single_active db ->
  single_active (fst (run (update_subscription sid upd requester t1 t2 t3) db)).
Proof.
  intros Hop Hinv. rewrite run_update_subscription. cbv zeta.
  assert (Hkeep : forall ne st3 uid x,
             active_of uid
               (setattrs (UpdateData.mk (SubscriptionUpdate.plan_id upd)
                            (SubscriptionUpdate.status upd) ne st3) x) = true ->
             active_of uid x = true).
  { intros ne st3 uid x. unfold active_of, has_status, setattrs. simpl in *.
    destruct (SubscriptionUpdate.plan_id upd) as [[v|]|],
      (SubscriptionUpdate.status upd) as [[[]|]|], ne as [e|], st3 as [c|];
      simpl; try discriminate Hop; rewrite ?andb_false_r;
      first [discriminate | tauto]. }
  assert (Hcommit : forall ne st3,
             single_active
               (with_subscriptions
                  (assign_first (has_id sid)
                     (setattrs (UpdateData.mk (SubscriptionUpdate.plan_id upd)
                                  (SubscriptionUpdate.status upd) ne st3))
                     (subscriptions db)) db)).
  { intros ne st3 uid. simpl. specialize (Hinv uid).
    unfold active_count in *.
    etransitivity; [apply count_assign_first_le | exact Hinv].
    apply Hkeep. }
  destruct (lookup_subscription db sid) as [s|]; [|exact Hinv].
  destruct (not_authorized requester s); [exact Hinv|].
  destruct (SubscriptionUpdate.plan_id upd) as [v|] eqn:Ev.
  - destruct (first (plan_id_is v) (plans db)) as [plan|]; [|exact Hinv].
    destruct (Plan.is_active plan); [|exact Hinv].
    destruct (plus_days t2 _); [apply Hcommit | exact Hinv].
  - apply Hcommit.
Qed.

(** X9 -- the update route and the single-active invariant.  The invariant
    "at most one Active subscription per user" is kept by every sequence of
    Create, update, Cancel and SweepExpired calls in which no update
    assigns the status Active: plan changes and updates to Cancelled,
    Expired or null never add an Active row. *)
Theorem single_active_with_updates (ops : list Operation) (db : Database) :
  Forall (fun op => assigns_active op = false) ops ->
  single_active db ->
  single_active (perform_all ops db).
Proof.
  revert db. induction ops as [|op ops IH]; intros db Hops Hinv; [exact Hinv|].
  inversion Hops as [|? ? Hop Hrest]; subst. simpl. apply IH; [exact Hrest|].
  destruct op as [b u t | sid upd u t1 t2 t3 | sid u t | f t].
  - now apply create_keeps_single_active.
  - now apply update_keeps_single_active.
  - now apply cancel_keeps_single_active.
  - now apply (sweep_keeps_single_active f t db []).
Qed.

(** The whole sample history, with its plan change and its update to
    Cancelled. *)
Lemma single_active_with_updates_witness :
  single_active (perform_all Sample.history Sample.empty)
  /\ active_count 1 (subscriptions (perform_all Sample.history Sample.empty))
     = 0%nat.
Proof.
  split; [|reflexivity].
  apply (single_active_with_updates Sample.history Sample.empty).
  - repeat constructor.
  - intros uid. apply Nat.le_0_l.
Defined.

(** ** Dates *)

Lemma perform_plans_users (op : Operation) (db : Database) :
  plans (perform db op) = plans db /\ users (perform db op) = users db.
Proof.
  destruct op as [b u t | sid upd u t1 t2 t3 | sid u t | f t]; simpl.
  - rewrite run_create_subscription. cbv zeta.
    destruct (first _ (users db)); [|auto].
    destruct (lookup_plan db _) as [plan|]; [|auto].
    destruct (Plan.is_active plan); [|auto].
    destruct (first (active_of _) (subscriptions db)); [auto|].
    destruct (plus_days t _); auto.
  - rewrite run_update_subscription. cbv zeta.
    destruct (lookup_subscription db sid) as [s|]; [|auto].
    destruct (not_authorized u s); [auto|].
    destruct (SubscriptionUpdate.plan_id upd) as [v|]; [|auto].
    destruct (first (plan_id_is v) (plans db)) as [plan|]; [|auto].
    destruct (Plan.is_active plan); [|auto].
    destruct (plus_days t2 _); auto.
  - rewrite run_cancel_subscription.
    destruct (lookup_subscription db sid) as [s|]; [|auto].
    destruct (not_authorized u s); [auto|].
    destruct (Subscription.status s) as [[]|]; auto.
  - destruct f; auto.
Qed.

Lemma perform_keeps_dates (op : Operation) (db : Database) (now : Z) :
  Forall (fun p => 0 <= Plan.duration_days p) (plans db) ->
  Forall (fun s => Subscription.start_date s <= Subscription.end_date s
                   /\ Subscription.start_date s <= now) (subscriptions db) ->
  match op_clock op with Some t => now <= t | None => True end ->
  Forall (fun s => Subscription.start_date s <= Subscription.end_date s
                   /\ Subscription.start_date s
                      <= match op_clock op with Some t => t | None => now end)
    (subscriptions (perform db op)).
Proof.
  intros Hplans Hrows Hclock.
  assert (HD : 0 < DAY) by reflexivity.
  destruct op as [b u t | sid upd u t1 t2 t3 | sid u t | f t]; simpl in *.
  - assert (Hold : Forall
              (fun s => Subscription.start_date s <= Subscription.end_date s
                        /\ Subscription.start_date s <= t) (subscriptions db)).
    { eapply Forall_impl; [|exact Hrows]. simpl. intros s [? ?]. lia. }
    rewrite run_create_subscription. cbv zeta.
    destruct (first _ (users db)); [|exact Hold].
    destruct (lookup_plan db _) as [plan|] eqn:Ep; [|exact Hold].
    destruct (Plan.is_active plan); [|exact Hold].
    destruct (first (active_of _) (subscriptions db)); [exact Hold|].
    destruct (plus_days t _) as [e|] eqn:Epd; [|exact Hold].
    apply plus_days_Ok in Epd as [_ ->].
    simpl. apply Forall_app. split; [exact Hold|].
    constructor; [|constructor]. simpl.
    apply first_In in Ep as [Hin _].
    eapply Forall_forall in Hplans; [|exact Hin]. simpl in Hplans.
    split; nia.
  - assert (Hold : Forall
              (fun s => Subscription.start_date s <= Subscription.end_date s
                        /\ Subscription.start_date s <= t2) (subscriptions db)).
    { eapply Forall_impl; [|exact Hrows]. simpl. intros s [? ?]. lia. }
    rewrite run_update_subscription. cbv zeta.
    destruct (lookup_subscription db sid) as [s|]; [|exact Hold].
    destruct (not_authorized u s); [exact Hold|].
    destruct (SubscriptionUpdate.plan_id upd) as [v|].
    + destruct (first (plan_id_is v) (plans db)) as [plan|] eqn:Ep;
        [|exact Hold].
      destruct (Plan.is_active plan); [|exact Hold].
      rewrite clamp_max.
      pose proof (Z.le_max_l 0 (days (Subscription.end_date s - t1))) as Hd.
      set (d := Z.max 0 _) in *. clearbody d.
      destruct (plus_days t2 _) as [e|] eqn:Epd; [|exact Hold].
      apply plus_days_Ok in Epd as [_ ->].
      simpl. apply assign_first_Forall; [|exact Hold].
      intros x [Hx1 Hx2]. apply first_In in Ep as [Hin _].
      eapply Forall_forall in Hplans; [|exact Hin]. simpl in Hplans.
      unfold setattrs; simpl.
      destruct v as [v|], (SubscriptionUpdate.status upd) as [[[]|]|];
        simpl; split; nia.
    + simpl. apply assign_first_Forall; [|exact Hold].
      intros x Hx. unfold setattrs; simpl.
      destruct (SubscriptionUpdate.status upd) as [[[]|]|]; exact Hx.
  - rewrite run_cancel_subscription.
    destruct (lookup_subscription db sid) as [s|]; [|exact Hrows].
    destruct (not_authorized u s); [exact Hrows|].
    destruct (Subscription.status s) as [[]|]; try exact Hrows.
    simpl. apply assign_first_Forall; [|exact Hrows]. auto.
  - destruct f; try exact Hrows. simpl.
    unfold expire_overdue. apply Forall_map_keep; [|exact Hrows].
    intros x Hx. now destruct (overdue t x).
Qed.

(** X10 -- [end_date >= start_date].  If no plan has a negative duration,
    every subscription starts no later than it ends and no later than
    [now], and the clock readings the operations write into dates never go
    back from [now] on, then after any sequence of Create, update, Cancel
    and SweepExpired calls every subscription still starts no later than
    it ends. *)
Theorem dates_stay_ordered (ops : list Operation) (db : Database) (now : Z) :
  Forall (fun p => 0 <= Plan.duration_days p) (plans db) ->
  Forall (fun s => Subscription.start_date s <= Subscription.end_date s
                   /\ Subscription.start_date s <= now) (subscriptions db) ->
  clock_advances now ops ->
  Forall (fun s => Subscription.start_date s <= Subscription.end_date s)
    (subscriptions (perform_all ops db)).
Proof.
  revert db now. induction ops as [|op ops IH]; intros db now Hplans Hrows Hc.
  - simpl. eapply Forall_impl; [|exact Hrows]. simpl. tauto.
  - simpl in *. pose proof (perform_keeps_dates op db now Hplans Hrows) as Hstep.
    destruct (perform_plans_users op db) as [Hp _].
    destruct (op_clock op) as [t|].
    + destruct Hc as [Ht Hc]. apply (IH _ t); [now rewrite Hp | auto | exact Hc].
    + apply (IH _ now); [now rewrite Hp | auto | exact Hc].
Qed.

(** The sample history, whose readings are 0, 1, 2, 6, 7 and 8. *)
Lemma dates_stay_ordered_witness :
  Forall (fun s => Subscription.start_date s <= Subscription.end_date s)
    (subscriptions (perform_all Sample.history Sample.empty)).
Proof.
  apply (dates_stay_ordered Sample.history Sample.empty 0).
  - repeat constructor; discriminate.
  - constructor.
  - simpl. repeat split; discriminate.
Defined.

(** ** Rows never disappear, terminal states are final *)

Lemma evolves_refl (s : Subscription.t) : evolves s s.
Proof. unfold evolves. tauto. Qed.

Lemma evolves_trans (a b c : Subscription.t) :
  evolves a b -> evolves b c -> evolves a c.
Proof.
  unfold evolves. intros (I1 & U1 & P1 & S1 & E1 & T1)
    (I2 & U2 & P2 & S2 & E2 & T2).
  repeat split; try congruence.
  intros Hn. specialize (T1 Hn). subst b. auto.
Qed.

Lemma evolves_out_of_active (s s' : Subscription.t) :
  Subscription.status s = Some ACTIVE ->
  Subscription.id s' = Subscription.id s ->
  Subscription.user_id s' = Subscription.user_id s ->
  Subscription.plan_id s' = Subscription.plan_id s ->
  Subscription.start_date s' = Subscription.start_date s ->
  Subscription.end_date s' = Subscription.end_date s ->
  evolves s s'.
Proof. unfold evolves. intros. repeat split; try assumption. congruence. Qed.

Lemma Forall2_same {A : Type} (R : A -> A -> Prop) (l : list A) :
  (forall x, R x x) -> Forall2 R l l.
Proof. intros H. induction l; constructor; auto. Qed.

Lemma Forall2_chain {A : Type} (R : A -> A -> Prop) (a b c : list A) :
  (forall x y z, R x y -> R y z -> R x z) ->
  Forall2 R a b -> Forall2 R b c -> Forall2 R a c.
Proof.
  intros Htr H. revert c. induction H; intros c Hbc; inversion Hbc; subst;
    constructor; eauto.
Qed.

Lemma Forall2_assign_first {A : Type} (R : A -> A -> Prop) (p : A -> bool)
  (g : A -> A) (l : list A) (x : A) :
  (forall y, R y y) -> first p l = Some x -> R x (g x) ->
  Forall2 R l (assign_first p g l).
Proof.
  intros Hr. induction l as [|y l IH]; simpl; intros H Hx; [constructor|].
  destruct (p y).
  - injection H as ->. constructor; [exact Hx | now apply Forall2_same].
  - constructor; auto.
Qed.

Lemma Forall2_nth_error {A : Type} (R : A -> A -> Prop) (a b : list A)
  (i : nat) (x : A) :
  Forall2 R a b -> nth_error a i = Some x ->
  exists y, nth_error b i = Some y /\ R x y.
Proof.
  intros H. revert i. induction H as [|u v a b Huv _ IH]; intros i Hi.
  - destruct i; discriminate.
  - destruct i as [|i]; simpl in *.
    + injection Hi as ->. eauto.
    + auto.
Qed.

Lemma expire_overdue_evolves (t : Z) (l : list Subscription.t) :
  Forall2 evolves l (expire_overdue t l).
Proof.
  induction l as [|x l IH]; simpl; constructor; [|exact IH].
  destruct (overdue t x) eqn:E; [|apply evolves_refl].
  apply overdue_iff in E as [Hs _]. now apply evolves_out_of_active.
Qed.

(** The table after one operation other than an update: the old rows,
    evolved, followed by what was added. *)
Lemma perform_extends (op : Operation) (db : Database) :
  is_update op = false ->
  exists old added,
    subscriptions (perform db op) = app old added
    /\ Forall2 evolves (subscriptions db) old.
Proof.
  intros Hop.
  assert (Hsame : exists old added,
             subscriptions db = app old added
             /\ Forall2 evolves (subscriptions db) old).
  { exists (subscriptions db), []. rewrite app_nil_r.
    split; [reflexivity | apply Forall2_same, evolves_refl]. }
  destruct op as [b u t | sid upd u t1 t2 t3 | sid u t | f t]; simpl;
    try discriminate.
  - rewrite run_create_subscription. cbv zeta.
    destruct (first _ (users db)); [|exact Hsame].
    destruct (lookup_plan db _) as [plan|]; [|exact Hsame].
    destruct (Plan.is_active plan); [|exact Hsame].
    destruct (first (active_of _) (subscriptions db)); [exact Hsame|].
    destruct (plus_days t _); [|exact Hsame].
    simpl. eexists; eexists. split; [reflexivity|].
    apply Forall2_same, evolves_refl.
  - rewrite run_cancel_subscription.
    destruct (lookup_subscription db sid) as [s|] eqn:Es; [|exact Hsame].
    destruct (not_authorized u s); [exact Hsame|].
    destruct (Subscription.status s) as [[]|] eqn:Hst; try exact Hsame.
    simpl. exists (assign_first (has_id sid) (cancel_row t) (subscriptions db)), [].
    rewrite app_nil_r. split; [reflexivity|].
    apply (Forall2_assign_first evolves (has_id sid) (cancel_row t) _ s);
      [apply evolves_refl | exact Es |].
    now apply evolves_out_of_active.
  - destruct f; try exact Hsame. simpl.
    exists (expire_overdue t (subscriptions db)), []. rewrite app_nil_r.
    split; [reflexivity | apply expire_overdue_evolves].
Qed.

Lemma perform_all_extends (ops : list Operation) (db : Database) :
  Forall (fun op => is_update op = false) ops ->
  exists old added,
    subscriptions (perform_all ops db) = app old added
    /\ Forall2 evolves (subscriptions db) old.
Proof.
  revert db. induction ops as [|op ops IH]; intros db Hops; simpl.
  - exists (subscriptions db), []. rewrite app_nil_r.
    split; [reflexivity | apply Forall2_same, evolves_refl].
  - inversion Hops as [|? ? Hop Hrest]; subst.
    destruct (perform_extends op db Hop) as (o1 & a1 & E1 & F1).
    destruct (IH (perform db op) Hrest) as (o2 & a2 & E2 & F2).
    rewrite E1 in F2. apply Forall2_app_inv_l in F2
      as (o21 & o22 & F21 & F22 & ->).
    exists o21, (app o22 a2). split; [now rewrite E2, app_assoc|].
    eapply Forall2_chain; [exact evolves_trans | exact F1 | exact F21].
Qed.

Lemma Forall2_evolves_lookup (sid : Z) (a b : list Subscription.t)
  (s : Subscription.t) :
  Forall2 evolves a b ->
  first (has_id sid) a = Some s ->
  exists s', first (has_id sid) b = Some s' /\ evolves s s'.
Proof.
  induction 1 as [|x y a b Hxy _ IH]; simpl; intros Hs; [discriminate|].
  assert (has_id sid y = has_id sid x) as ->.
  { unfold has_id. destruct Hxy as (Hid & _). now rewrite Hid. }
  destruct (has_id sid x).
  - injection Hs as <-. eauto.
  - auto.
Qed.

(** X11 -- under Create, Cancel and SweepExpired subscriptions are never
    deleted and only leave Active.  With pairwise distinct keys, after any
    sequence of these calls every subscription is still found under its
    key, with the owner, plan, start and end date it had; a subscription
    that was Cancelled or Expired (or without status) is found unchanged,
    so none ever returns to Active; and the table has not become
    shorter. *)
Theorem rows_only_evolve (ops : list Operation) (db : Database) :
  Forall (fun op => is_update op = false) ops ->
  keys_fresh db ->
  (List.length (subscriptions db)
   <= List.length (subscriptions (perform_all ops db)))%nat
  /\ (forall sid s,
         lookup_subscription db sid = Some s ->
         exists s',
           lookup_subscription (perform_all ops db) sid = Some s'
           /\ evolves s s').
Proof.
  intros Hops _.
  destruct (perform_all_extends ops db Hops) as (old & added & E & F).
  unfold lookup_subscription. rewrite E. split.
  - rewrite length_app, <- (Forall2_length F). lia.
  - intros sid s Hs. fold (has_id sid) in *.
    destruct (Forall2_evolves_lookup sid _ _ s F Hs) as (s' & Hs' & Hev).
    exists s'. split; [|exact Hev]. now apply first_app_keep.
Qed.

(** Alice's cancelled subscription, key 1, through a later purchase and a
    sweep. *)
Lemma rows_only_evolve_witness :
  exists s',
    lookup_subscription
      (perform_all
         [Create (SubscriptionCreate.mk 1 2) Sample.alice 6;
          SweepExpired NoFault (400 * DAY)] Sample.cancelled) 1
    = Some s'
    /\ evolves (Subscription.mk 1 1 1 0 (30 * DAY) (Some CANCELLED) (Some 5)) s'.
Proof.
  refine (proj2 (rows_only_evolve
                   [Create (SubscriptionCreate.mk 1 2) Sample.alice 6;
                    SweepExpired NoFault (400 * DAY)] Sample.cancelled _ _)
            1 _ eq_refl).
  - repeat constructor.
  - split; simpl.
    + constructor; [intros [] | constructor].
    + constructor; [reflexivity | constructor].
Defined.

(** ** A subscription without status *)

Lemma first_expire_overdue (sid t : Z) (l : list Subscription.t) :
  first (has_id sid) (expire_overdue t l)
  = option_map (fun s => if overdue t s then mark_expired s else s)
      (first (has_id sid) l).
Proof.
  induction l as [|x l IH]; simpl; [reflexivity|].
  assert (has_id sid (if overdue t x then mark_expired x else x)
          = has_id sid x) as -> by (now destruct (overdue t x)).
  destruct (has_id sid x); [reflexivity | exact IH].
Qed.

(** X12 -- an explicit null status.  The update route accepts
    [{"status": null}] from the owner or an administrator and writes a null
    status.  Such a subscription can no longer be cancelled: Cancel ends in
    an unhandled [AttributeError] instead of an answer, and leaves the row
    as it is; the sweep never expires it either. *)
Theorem null_status_blocks_cancel (sid : Z) (upd : SubscriptionUpdate.t)
  (requester : User.t) (t1 t2 t3 : Z) (db : Database) (s : Subscription.t) :
  lookup_subscription db sid = Some s ->
  owner_or_admin requester s ->
  SubscriptionUpdate.plan_id upd = None ->
  SubscriptionUpdate.status upd = Some None ->
  let db' := fst (run (update_subscription sid upd requester t1 t2 t3) db) in
  snd (run (update_subscription sid upd requester t1 t2 t3) db)
  = Ok (Subscription.set_status None s)
  /\ lookup_subscription db' sid = Some (Subscription.set_status None s)
  /\ (forall requester' now,
         owner_or_admin requester' s ->
         exists msg,
           run (cancel_subscription sid requester' now) db'
           = (db', Raise (Unhandled msg))
           /\ error_kind (Unhandled msg) = InternalError)
  /\ (forall fault now log,
         lookup_subscription (sweep_db fault now db' log) sid
         = Some (Subscription.set_status None s)).
Proof.
  intros Hs Hauth Hplan Hstatus db'. subst db'.
  rewrite run_update_subscription. cbv zeta. rewrite Hs.
  apply owner_or_admin_authorized in Hauth as ->.
  rewrite Hplan, Hstatus. cbn [fst snd].
  change (setattrs {| UpdateData.plan_id := None;
                      UpdateData.status := Some None;
                      UpdateData.end_date := None;
                      UpdateData.cancelled_at := None |})
    with (Subscription.set_status None).
  assert (Hlook :
            lookup_subscription
              (with_subscriptions
                 (assign_first (has_id sid) (Subscription.set_status None)
                    (subscriptions db)) db) sid
            = Some (Subscription.set_status None s))
    by (now apply lookup_after_assign).
  split; [reflexivity|]. split; [exact Hlook|]. split.
  - intros requester' now Hauth'. rewrite run_cancel_subscription, Hlook.
    assert (not_authorized requester' (Subscription.set_status None s)
            = false) as -> by (now apply owner_or_admin_authorized).
    eexists. split; reflexivity.
  - intros fault now log. rewrite sweep_db_cases.
    destruct fault; try exact Hlook.
    unfold lookup_subscription in *. cbn [subscriptions with_subscriptions] in *.
    fold (has_id sid) in *. rewrite first_expire_overdue, Hlook. reflexivity.
Qed.

(** Alice sends a null status for her subscription and then tries to
    cancel it. *)
Lemma null_status_blocks_cancel_witness :
  exists msg,
    run (cancel_subscription 1 Sample.alice 9)
      (fst (run (update_subscription 1
                   (SubscriptionUpdate.mk None (Some None)) Sample.alice
                   8 8 8) Sample.bought))
    = (fst (run (update_subscription 1
                   (SubscriptionUpdate.mk None (Some None)) Sample.alice
                   8 8 8) Sample.bought),
       Raise (Unhandled msg))
    /\ error_kind (Unhandled msg) = InternalError.
Proof.
  exact (proj1 (proj2 (proj2
    (null_status_blocks_cancel 1 (SubscriptionUpdate.mk None (Some None))
       Sample.alice 8 8 8 Sample.bought
       (Subscription.mk 1 1 1 0 (30 * DAY) (Some ACTIVE) None)
       eq_refl (or_introl eq_refl) eq_refl eq_refl)))
    Sample.alice 9 (or_introl eq_refl)).
Defined.

(** ** Authentication *)

(** X13 -- who passes authentication.  The user [get_current_user] returns
    is a row of the users table, active, and the one whose key [TokenData]
    validated from the token; a refusal is 401 "Could not validate
    credentials", 400 "Inactive user" or the uncaught [ValidationError] of
    a token whose claims [TokenData] rejects.  The second activity check of
    [get_current_active_user] never refuses anyone who passed the first.
    The administrator guard passes exactly the authenticated users whose
    row has the [is_admin] column set. *)
Theorem authentication_outcome (token : Jwt.Decoded) (db : Database) :
  (forall u,
      Jwt.get_current_user token db = Ok u ->
      In u (users db)
      /\ User.is_active u = true
      /\ token = Jwt.Payload true (Some (User.id u)))
  /\ (forall e,
         Jwt.get_current_user token db = Raise e ->
         e = Jwt.credentials_exception
         \/ e = HTTPException 400 "Inactive user"
         \/ (e = Unhandled "ValidationError"
             /\ token = Jwt.Payload true None))
  /\ Jwt.active_user_of token db = Jwt.get_current_user token db
  /\ (forall u,
         Jwt.admin_user_of token db = Ok u
         <-> Jwt.get_current_user token db = Ok u
             /\ User.is_admin u = true).
Proof.
  unfold Jwt.active_user_of, Jwt.admin_user_of, Jwt.get_current_user,
    Jwt.get_current_active_user, Jwt.get_current_admin_user.
  split; [|split; [|split]].
  - intros u. destruct token as [|[] [uid|]]; try discriminate.
    destruct (first _ (users db)) as [user|] eqn:E; [|discriminate].
    destruct (User.is_active user) eqn:Ea; [|discriminate].
    simpl. intros [= <-]. apply first_In in E as [Hin Hid].
    apply Z.eqb_eq in Hid. subst uid. auto.
  - intros e. destruct token as [|[] [uid|]];
      try (intros [= <-]; now left); [|intros [= <-]; auto].
    destruct (first _ (users db)) as [user|]; [|intros [= <-]; now left].
    destruct (User.is_active user); simpl; [discriminate|].
    intros [= <-]. auto.
  - destruct token as [|[] [uid|]]; try reflexivity.
    destruct (first _ (users db)) as [user|]; [|reflexivity].
    destruct (User.is_active user) eqn:Ea; simpl; [|reflexivity].
    now rewrite Ea.
  - intros u. destruct token as [|[] [uid|]];
      try (split; [discriminate | intros [H _]; discriminate H]).
    destruct (first _ (users db)) as [user|];
      [|split; [discriminate | intros [H _]; discriminate H]].
    destruct (User.is_active user); simpl;
      [|split; [discriminate | intros [H _]; discriminate H]].
    destruct (User.is_admin user) eqn:Ead; simpl.
    + split; [intros [= <-]; auto | intros [H _]; exact H].
    + split; [discriminate | intros [[= <-] H]; congruence].
Qed.

(** A token for Bob: Bob is authenticated, and is not let through the
    administrator guard. *)
Lemma authentication_outcome_witness :
  Jwt.admin_user_of (Jwt.Payload true (Some 2)) Sample.empty
  = Raise (HTTPException 403 "Not enough permissions")
  /\ In Sample.bob (users Sample.empty)
  /\ User.is_active Sample.bob = true
  /\ Jwt.Payload true (Some 2) = Jwt.Payload true (Some (User.id Sample.bob)).
Proof.
  split; [reflexivity|].
  exact (proj1 (authentication_outcome (Jwt.Payload true (Some 2))
                  Sample.empty) Sample.bob eq_refl).
Defined.

(** ** Listings and pages *)

Lemma firstn_plus {A : Type} (a b : nat) (l : list A) :
  firstn (a + b) l = app (firstn a l) (firstn b (skipn a l)).
Proof.
  revert l. induction a as [|a IH]; intros l; simpl; [reflexivity|].
  destruct l as [|x l]; simpl.
  - now rewrite firstn_nil.
  - now rewrite IH.
Qed.

Lemma skipn_plus {A : Type} (a b : nat) (l : list A) :
  skipn (a + b) l = skipn b (skipn a l).
Proof.
  revert l. induction a as [|a IH]; intros l; simpl; [reflexivity|].
  destruct l as [|x l]; simpl; [now rewrite skipn_nil | apply IH].
Qed.

Lemma In_firstn_skipn {A : Type} (a b : nat) (l : list A) (x : A) :
  In x (firstn b (skipn a l)) -> In x l.
Proof.
  intros H. rewrite <- (firstn_skipn a l). apply in_or_app. right.
  rewrite <- (firstn_skipn b (skipn a l)). apply in_or_app. now left.
Qed.

(** A page is a window of the selected rows, of at most [limit] rows, and
    consecutive pages join into the larger page. *)
Lemma offset_limit_pages {A : Type} (skip limit : Z) (rows : list A) :
  0 <= skip < 2 ^ 63 -> 0 <= limit < 2 ^ 63 ->
  exists page,
    offset_limit_all skip limit rows = Ok page
    /\ Z.of_nat (List.length page) <= limit
    /\ (forall x, In x page -> In x rows)
    /\ (forall limit',
          0 <= limit' -> skip + limit < 2 ^ 63 -> limit + limit' < 2 ^ 63 ->
          exists page',
            offset_limit_all (skip + limit) limit' rows = Ok page'
            /\ offset_limit_all skip (limit + limit') rows
               = Ok (app page page'))
    /\ (Z.of_nat (List.length rows) <= skip -> page = [])
    /\ (skip = 0 -> Z.of_nat (List.length rows) <= limit -> page = rows).
Proof.
  intros Hs Hl. unfold offset_limit_all.
  assert (Hok : forall a b,
             0 <= a < 2 ^ 63 -> 0 <= b < 2 ^ 63 ->
             (a <? 0) || (b <? 0) = false
             /\ (2 ^ 63 <=? a) || (2 ^ 63 <=? b) = false).
  { intros a b Ha Hb. split; apply orb_false_iff; split;
      first [apply Z.ltb_ge | apply Z.leb_gt]; lia. }
  destruct (Hok _ _ Hs Hl) as [-> ->]. eexists. split; [reflexivity|].
  split; [|split; [|split; [|split]]].
  - pose proof (firstn_le_length (Z.to_nat limit)
                  (skipn (Z.to_nat skip) rows)). lia.
  - intros x. apply In_firstn_skipn.
  - intros limit' Hl' Hsl Hll.
    destruct (Hok (skip + limit) limit' ltac:(lia) ltac:(lia)) as [-> ->].
    destruct (Hok skip (limit + limit') ltac:(lia) ltac:(lia)) as [-> ->].
    eexists. split; [reflexivity|].
    rewrite !Z2Nat.inj_add by lia. now rewrite firstn_plus, skipn_plus.
  - intros Hlen. rewrite skipn_all2 by lia. apply firstn_nil.
  - intros -> Hlen. simpl. apply firstn_all2. lia.
Qed.

(** X14 -- the administrator's listing of subscriptions.  It is refused
    with 403 to anyone who is not an administrator.  For an administrator
    and [skip] and [limit] that are non-negative 64-bit integers it returns
    at most [limit] subscriptions, all of them rows of the table with the
    requested status (if one is given); the page starting where a page
    ends continues it (the two join into the page of both sizes, as long
    as the bounds stay 64-bit integers), a page starting beyond the last
    row is empty, and with [skip = 0] and a [limit] that covers the
    selection the listing is the whole selection. *)
Theorem get_all_subscriptions_pages (skip limit : Z)
  (status : option SubscriptionStatus) (requester : User.t) (db : Database) :
  0 <= skip < 2 ^ 63 -> 0 <= limit < 2 ^ 63 ->
  (User.is_admin requester = false ->
   run (get_all_subscriptions skip limit status requester) db
   = (db, Raise (HTTPException 403 "Not enough permissions")))
  /\ (User.is_admin requester = true ->
      exists page,
        run (get_all_subscriptions skip limit status requester) db
        = (db, Ok page)
        /\ Z.of_nat (List.length page) <= limit
        /\ (forall s, In s page ->
              In s (subscriptions db)
              /\ forall st, status = Some st ->
                            Subscription.status s = Some st)
        /\ (forall limit',
              0 <= limit' -> skip + limit < 2 ^ 63 ->
              limit + limit' < 2 ^ 63 ->
              exists page',
                run (get_all_subscriptions (skip + limit) limit' status
                       requester) db = (db, Ok page')
                /\ run (get_all_subscriptions skip (limit + limit') status
                          requester) db = (db, Ok (app page page')))
        /\ (Z.of_nat (List.length (subscriptions db)) <= skip -> page = [])
        /\ (skip = 0 ->
            Z.of_nat (List.length (subscriptions db)) <= limit ->
            page = all (status_criterion status) (subscriptions db))).
Proof.
  intros Hs Hl. unfold run, get_all_subscriptions, Jwt.get_current_admin_user.
  split; [intros ->; reflexivity|]. intros ->. simpl.
  pose proof (filter_length_le (status_criterion status) (subscriptions db))
    as Hflen. unfold all.
  destruct (offset_limit_pages skip limit
              (filter (status_criterion status) (subscriptions db)) Hs Hl)
    as (page & -> & Hlen & Hin & Hnext & Hempty & Hwhole).
  exists page. split; [reflexivity|]. split; [exact Hlen|].
  split; [|split; [|split]].
  - intros s Hp. apply Hin in Hp. apply filter_In in Hp as [Hp Hc].
    split; [exact Hp|]. intros st ->. now apply has_status_iff.
  - intros limit' Hl' Hsl Hll.
    destruct (Hnext limit' Hl' Hsl Hll) as (page' & -> & ->).
    exists page'. split; reflexivity.
  - intros H. apply Hempty. lia.
  - intros H0 H. apply Hwhole; [assumption | lia].
Qed.

(** The administrator lists the result of the sample history two by two:
    the first page and the second make up the page of four. *)
Lemma get_all_subscriptions_pages_witness :
  exists page page',
    run (get_all_subscriptions 0 2 None Sample.root)
      (perform_all Sample.history Sample.empty)
    = (perform_all Sample.history Sample.empty, Ok page)
    /\ Z.of_nat (List.length page) <= 2
    /\ run (get_all_subscriptions (0 + 2) 2 None Sample.root)
         (perform_all Sample.history Sample.empty)
       = (perform_all Sample.history Sample.empty, Ok page')
    /\ run (get_all_subscriptions 0 (2 + 2) None Sample.root)
         (perform_all Sample.history Sample.empty)
       = (perform_all Sample.history Sample.empty, Ok (app page page')).
Proof.
  destruct (proj2 (get_all_subscriptions_pages 0 2 None Sample.root
                     (perform_all Sample.history Sample.empty)
                     ltac:(lia) ltac:(lia)) eq_refl)
    as (page & Hrun & Hlen & _ & Hnext & _).
  destruct (Hnext 2 ltac:(lia) ltac:(lia) ltac:(lia))
    as (page' & Hrun' & Hboth).
  exists page, page'. auto.
Defined.

(** X15 -- the listing of plans.  For [skip] and [limit] that are
    non-negative 64-bit integers it returns at most [limit] plans of the
    table; with [active_only] (the default) every plan listed is active,
    and an active plan is listed whenever the page covers the whole table;
    consecutive pages join into the larger page, as long as the bounds
    stay 64-bit integers. *)
Theorem get_all_plans_pages (skip limit : Z) (active_only : bool)
  (requester : User.t) (db : Database) :
  0 <= skip < 2 ^ 63 -> 0 <= limit < 2 ^ 63 ->
  exists page,
    run (get_all_plans skip limit active_only requester) db = (db, Ok page)
    /\ Z.of_nat (List.length page) <= limit
    /\ (forall p, In p page ->
          In p (plans db)
          /\ (active_only = true -> Plan.is_active p = true))
    /\ (skip = 0 -> Z.of_nat (List.length (plans db)) <= limit ->
        forall p, In p (plans db) ->
                  (active_only = true -> Plan.is_active p = true) ->
                  In p page)
    /\ (forall limit',
          0 <= limit' -> skip + limit < 2 ^ 63 -> limit + limit' < 2 ^ 63 ->
          exists page',
            run (get_all_plans (skip + limit) limit' active_only requester) db
            = (db, Ok page')
            /\ run (get_all_plans skip (limit + limit') active_only requester)
                 db = (db, Ok (app page page'))).
Proof.
  intros Hs Hl. unfold run, get_all_plans.
  set (rows := if active_only then all Plan.is_active (plans db)
               else plans db).
  assert (Hrows : forall p, In p rows
                            <-> In p (plans db)
                                /\ (active_only = true ->
                                    Plan.is_active p = true)).
  { intros p. unfold rows, all. destruct active_only.
    - rewrite filter_In. tauto.
    - split; [intros H; split; [exact H | discriminate] | tauto]. }
  assert (Hrlen : (List.length rows <= List.length (plans db))%nat).
  { unfold rows, all. destruct active_only; [apply filter_length_le | lia]. }
  destruct (offset_limit_pages skip limit rows Hs Hl)
    as (page & -> & Hlen & Hin & Hnext & _ & Hwhole).
  exists page. split; [reflexivity|]. split; [exact Hlen|].
  split; [|split].
  - intros p Hp. now apply Hrows, Hin.
  - intros H0 Hcover p Hp Hact. rewrite Hwhole; [|assumption|lia].
    apply Hrows. auto.
  - intros limit' Hl' Hsl Hll.
    destruct (Hnext limit' Hl' Hsl Hll) as (page' & -> & ->).
    exists page'. split; reflexivity.
Qed.

(** The default listing of the sample plans leaves out the retired one. *)
Lemma get_all_plans_pages_witness :
  exists page,
    run (get_all_plans 0 100 true Sample.alice) Sample.empty
    = (Sample.empty, Ok page)
    /\ In Sample.monthly page
    /\ ~ In Sample.retired page.
Proof.
  destruct (get_all_plans_pages 0 100 true Sample.alice Sample.empty
              ltac:(lia) ltac:(lia))
    as (page & Hrun & _ & Hin & Hall & _).
  exists page. split; [exact Hrun|]. split.
  - apply Hall; [reflexivity | discriminate | simpl; tauto | reflexivity].
  - intros H. apply Hin in H as [_ H]. discriminate (H eq_refl).
Defined.

(** ** Plans *)







(** ** More on the update route *)

(** X18 -- refusals of the update route are atomic, and a plan change does
    not touch the status.  For an existing subscription and its owner or an
    administrator: a [plan_id] that is null or names no plan is answered
    404 and an inactive plan 400, and then nothing is written, also when
    the request sets a status at the same time.  A request that sets only
    the plan, when the new end date is one Python can represent, succeeds
    on a subscription in any state and leaves status and [cancelled_at] as
    they were: changing the plan of an Expired or Cancelled subscription
    moves its end date but does not make it Active. *)
Theorem update_refusals_and_plan_change (sid : Z)
  (upd : SubscriptionUpdate.t) (requester : User.t) (t1 t2 t3 : Z)
  (db : Database) (s : Subscription.t) :
  lookup_subscription db sid = Some s ->
  owner_or_admin requester s ->
  let response := run (update_subscription sid upd requester t1 t2 t3) db in
  (forall v,
      SubscriptionUpdate.plan_id upd = Some v ->
      (v = None \/ forall p, In p (plans db) -> Some (Plan.id p) <> v) ->
      response
      = (db, Raise (HTTPException 404
                      ("Plan with ID " ++ str_opt v ++ " not found"))))
  /\ (forall pid plan,
         SubscriptionUpdate.plan_id upd = Some (Some pid) ->
         lookup_plan db pid = Some plan ->
         Plan.is_active plan = false ->
         response
         = (db, Raise (HTTPException 400
                         ("Plan with ID " ++ str pid ++ " is not active"))))
  /\ (forall pid plan,
         SubscriptionUpdate.plan_id upd = Some (Some pid) ->
         SubscriptionUpdate.status upd = None ->
         lookup_plan db pid = Some plan ->
         Plan.is_active plan = true ->
         representable t2
           (Plan.duration_days plan
            + Z.max 0 ((Subscription.end_date s - t1) / 86400000000)) ->
         exists s',
           snd response = Ok s'
           /\ lookup_subscription (fst response) sid = Some s'
           /\ Subscription.plan_id s' = pid
           /\ Subscription.status s' = Subscription.status s
           /\ Subscription.cancelled_at s' = Subscription.cancelled_at s).
Proof.
  intros Hs Hauth response. subst response.
  rewrite run_update_subscription. cbv zeta. rewrite Hs.
  apply owner_or_admin_authorized in Hauth as ->.
  split; [|split].
  - intros v -> Hv.
    destruct (first (plan_id_is v) (plans db)) as [p|] eqn:E; [|reflexivity].
    exfalso. apply first_In in E as [Hin Hp]. unfold plan_id_is in Hp.
    destruct Hv as [-> | Hv]; [discriminate|].
    destruct v as [n|]; [|discriminate]. apply Z.eqb_eq in Hp.
    apply (Hv p Hin). now rewrite Hp.
  - intros pid plan -> Hplan Hact.
    change (first (plan_id_is (Some pid)) (plans db))
      with (lookup_plan db pid). now rewrite Hplan, Hact.
  - intros pid plan -> -> Hplan Hact Hrep.
    change (first (plan_id_is (Some pid)) (plans db))
      with (lookup_plan db pid). rewrite Hplan, Hact, clamp_max.
    change (days (Subscription.end_date s - t1))
      with ((Subscription.end_date s - t1) / 86400000000).
    rewrite (plus_days_representable _ _ Hrep). cbn [fst snd].
    eexists. split; [reflexivity|].
    split; [now apply lookup_after_assign|]. repeat split.
Qed.

(** Alice's expired subscription, moved to the plan of 20 days, stays
    Expired. *)
Lemma update_refusals_and_plan_change_witness :
  exists s',
    snd (run (update_subscription 1
                (SubscriptionUpdate.mk (Some (Some 2)) None) Sample.alice
                (31 * DAY) (31 * DAY) (31 * DAY))
           (sweep_db NoFault (31 * DAY) Sample.bought [])) = Ok s'
    /\ Subscription.plan_id s' = 2
    /\ Subscription.status s' = Some EXPIRED.
Proof.
  destruct (proj2 (proj2
              (update_refusals_and_plan_change 1
                 (SubscriptionUpdate.mk (Some (Some 2)) None) Sample.alice
                 (31 * DAY) (31 * DAY) (31 * DAY)
                 (sweep_db NoFault (31 * DAY) Sample.bought [])
                 (Subscription.mk 1 1 1 0 (30 * DAY) (Some EXPIRED) None)
                 eq_refl (or_introl eq_refl)))
              2 Sample.twenty eq_refl eq_refl eq_refl eq_refl)
    as (s' & Hok & _ & Hplan & Hst & _).
  - unfold representable. simpl. lia.
  - exists s'. auto.
Defined.

(** X19 -- the two ways to cancel.  On an Active subscription the update
    route with only [status = CANCELLED] does what Cancel does: the two
    calls, at the same time and for the same requester, leave the same
    database.  On a subscription that is already Cancelled they differ:
    Cancel refuses, the update route succeeds and replaces [cancelled_at]
    by the time of the new call. *)
Theorem set_status_cancelled_versus_cancel (sid : Z) (requester : User.t)
  (t1 t2 utcnow : Z) (db : Database) (s : Subscription.t) :
  lookup_subscription db sid = Some s ->
  let upd := SubscriptionUpdate.mk None (Some (Some CANCELLED)) in
  (Subscription.status s = Some ACTIVE ->
   fst (run (update_subscription sid upd requester t1 t2 utcnow) db)
   = fst (run (cancel_subscription sid requester utcnow) db))
  /\ (Subscription.status s = Some CANCELLED ->
      owner_or_admin requester s ->
      fst (run (cancel_subscription sid requester utcnow) db) = db
      /\ snd (run (update_subscription sid upd requester t1 t2 utcnow) db)
         = Ok (Subscription.set_cancelled_at (Some utcnow) s)
      /\ lookup_subscription
           (fst (run (update_subscription sid upd requester t1 t2 utcnow) db))
           sid
         = Some (Subscription.set_cancelled_at (Some utcnow) s)).
Proof.
  intros Hs upd. subst upd.
  rewrite run_update_subscription, run_cancel_subscription. cbv zeta.
  rewrite Hs. cbn [SubscriptionUpdate.plan_id SubscriptionUpdate.status].
  split.
  - intros Hact. rewrite Hact.
    destruct (not_authorized requester s); reflexivity.
  - intros Hst Hauth. apply owner_or_admin_authorized in Hauth as ->.
    rewrite Hst. cbn [fst snd].
    assert (Hrow : setattrs
                     {| UpdateData.plan_id := None;
                        UpdateData.status := Some (Some CANCELLED);
                        UpdateData.end_date := None;
                        UpdateData.cancelled_at := Some utcnow |} s
                   = Subscription.set_cancelled_at (Some utcnow) s).
    { unfold setattrs, Subscription.set_cancelled_at, Subscription.set_status.
      simpl. now rewrite Hst. }
    rewrite <- Hrow. split; [reflexivity|]. split; [reflexivity|].
    now apply lookup_after_assign.
Qed.

(** Alice, whose subscription was cancelled at time 5, is cancelled again
    through the update route at time 9. *)
Lemma set_status_cancelled_versus_cancel_witness :
  fst (run (cancel_subscription 1 Sample.alice 9) Sample.cancelled)
  = Sample.cancelled
  /\ snd (run (update_subscription 1
                 (SubscriptionUpdate.mk None (Some (Some CANCELLED)))
                 Sample.alice 9 9 9) Sample.cancelled)
     = Ok (Subscription.mk 1 1 1 0 (30 * DAY) (Some CANCELLED) (Some 9)).
Proof.
  destruct (proj2 (set_status_cancelled_versus_cancel 1 Sample.alice 9 9 9
                     Sample.cancelled
                     (Subscription.mk 1 1 1 0 (30 * DAY) (Some CANCELLED)
                        (Some 5)) eq_refl) eq_refl (or_introl eq_refl))
    as (Hcancel & Hupd & _).
  split; [exact Hcancel | exact Hupd].
Defined.
